(** * A shallow embedding of the docstring pipeline of aidocswriter
    (src/src/extension.ts): language configurations, region detection
    ([getCodeToDocument]), insertion ([insertDocstring]), prompt
    construction ([buildPrompt]), the API client and its response
    cleanup ([callGeminiAPI]) and the command handler
    ([generateDocstring]).

    Strings are JavaScript strings restricted to code units 0..255, one
    [ascii] per code unit.  JavaScript whitespace ([\s], [trim]) among
    those code units is TAB, LF, VT, FF, CR, SPACE and NO-BREAK SPACE.
    A text document is a non-empty list of lines joined by LF, as the
    editor presents it ([lineAt], [lineCount], [getText]). *)

From Stdlib Require Import Ascii String List Arith Lia Bool.
From Stdlib Require Import Numbers.DecimalString.
Import ListNotations.
Open Scope list_scope.

(** ** JavaScript strings *)

Abbreviation jstr := (list ascii).

(** String literals. *)
Definition L (s : string) : jstr := list_ascii_of_string s.

Definition nl : ascii := "010"%char.

Definition is_ws (c : ascii) : bool :=
  match nat_of_ascii c with
  | 9 | 10 | 11 | 12 | 13 | 32 | 160 => true
  | _ => false
  end.

Fixpoint drop_ws (s : jstr) : jstr :=
  match s with
  | c :: r => if is_ws c then drop_ws r else s
  | [] => []
  end.

(** The leading run of [\s] of a line: what the code reads as the first group of a leading-whitespace match. *)
Fixpoint leading_ws (s : jstr) : jstr :=
  match s with
  | c :: r => if is_ws c then c :: leading_ws r else []
  | [] => []
  end.

Definition drop_ws_end (s : jstr) : jstr := rev (drop_ws (rev s)).

(** [String.prototype.trim]. *)
Definition trim (s : jstr) : jstr := drop_ws_end (drop_ws s).

Fixpoint starts_with (p s : jstr) : bool :=
  match p, s with
  | [], _ => true
  | c :: p', d :: s' => Ascii.eqb c d && starts_with p' s'
  | _ :: _, [] => false
  end.

(** [String.prototype.endsWith]. *)
Definition ends_with (p s : jstr) : bool := starts_with (rev p) (rev s).

(** [String.prototype.includes]. *)
Fixpoint includes (s p : jstr) : bool :=
  starts_with p s ||
  match s with
  | [] => false
  | _ :: s' => includes s' p
  end.

(** [String.prototype.lastIndexOf] for a non-empty needle: [None] is -1. *)
Fixpoint last_index_of (s p : jstr) : option nat :=
  match s with
  | [] => if starts_with p [] then Some 0 else None
  | _ :: s' =>
      match last_index_of s' p with
      | Some i => Some (S i)
      | None => if starts_with p s then Some 0 else None
      end
  end.

(** [String.prototype.substring(a, b)]: indices clamped to the length,
    swapped when [a > b]. *)
Definition js_substring (s : jstr) (a b : nat) : jstr :=
  let a' := Nat.min a (length s) in
  let b' := Nat.min b (length s) in
  firstn (Nat.max a' b' - Nat.min a' b') (skipn (Nat.min a' b') s).

(** [s.split(/\r?\n/)]. *)
Fixpoint split_lines_aux (cur : jstr) (s : jstr) : list jstr :=
  match s with
  | [] => [rev cur]
  | c :: r =>
      if Ascii.eqb c nl then rev cur :: split_lines_aux [] r
      else if Ascii.eqb c "013"%char then
        match r with
        | d :: r' => if Ascii.eqb d nl then rev cur :: split_lines_aux [] r'
                     else split_lines_aux (c :: cur) r
        | [] => split_lines_aux (c :: cur) r
        end
      else split_lines_aux (c :: cur) r
  end.

Definition split_lines (s : jstr) : list jstr := split_lines_aux [] s.

(** [arr.join(sep)]. *)
Fixpoint join (sep : jstr) (l : list jstr) : jstr :=
  match l with
  | [] => []
  | [x] => x
  | x :: r => x ++ sep ++ join sep r
  end.

(** [`${n}`] for a non-negative integer. *)
Definition nat_to_str (n : nat) : jstr :=
  list_ascii_of_string (NilEmpty.string_of_uint (Nat.to_uint n)).

(** ** The editor's text document *)

(** Exceptions thrown by the code, with their message. *)
Inductive result (A : Type) :=
| Ok (a : A)
| Throw (msg : jstr).
Arguments Ok {A} a.
Arguments Throw {A} msg.

Definition bind {A B} (m : result A) (k : A -> result B) : result B :=
  match m with
  | Ok a => k a
  | Throw e => Throw e
  end.

Notation "'let*' x ':=' m 'in' k" := (bind m (fun x => k))
  (at level 200, x name, m at level 100, k at level 200).

(** A document always has at least one line. *)
Record document := mkDoc { doc_line0 : jstr; doc_rest : list jstr }.

Definition lines (d : document) : list jstr := doc_line0 d :: doc_rest d.

Definition lineCount (d : document) : nat := length (lines d).

(** [doc.getText()]. *)
Definition getText (d : document) : jstr := join [nl] (lines d).

(** [doc.lineAt(n).text]; an index outside the document throws. *)
Definition lineAt (d : document) (n : nat) : result jstr :=
  match nth_error (lines d) n with
  | Some t => Ok t
  | None => Throw (L "Illegal value for `line`")
  end.

(** [TextLine.firstNonWhitespaceCharacterIndex], computed by the editor
    as the length of the leading run of [\s]. *)
Definition firstNonWhitespaceCharacterIndex (t : jstr) : nat :=
  length (leading_ws t).

(** [TextLine.isEmptyOrWhitespace]. *)
Definition isEmptyOrWhitespace (t : jstr) : bool :=
  Nat.eqb (firstNonWhitespaceCharacterIndex t) (length t).

Record position := Pos { pos_line : nat; pos_char : nat }.

Definition pos_eqb (p q : position) : bool :=
  Nat.eqb (pos_line p) (pos_line q) && Nat.eqb (pos_char p) (pos_char q).

Definition pos_before (p q : position) : bool :=
  Nat.ltb (pos_line p) (pos_line q)
  || (Nat.eqb (pos_line p) (pos_line q) && Nat.ltb (pos_char p) (pos_char q)).

(** Length of the text of the first [k] lines, each with its LF. *)
Definition line_start (d : document) (k : nat) : nat :=
  length (concat (map (fun l => l ++ [nl]) (firstn k (lines d)))).

(** [doc.offsetAt(doc.validatePosition(p))]: a line past the end is the
    end of the document, a column past the end of its line is the end of
    that line. *)
Definition offsetAt (d : document) (p : position) : nat :=
  match nth_error (lines d) (pos_line p) with
  | Some t => line_start d (pos_line p) + Nat.min (pos_char p) (length t)
  | None => length (getText d)
  end.

(** A range is a pair of positions, start not after end. *)
Record range := Rng { rng_start : position; rng_end : position }.

(** [new vscode.Range(start, end)] orders its two positions. *)
Definition mkRange (p q : position) : range :=
  if pos_before q p then Rng q p else Rng p q.

(** [doc.getText(range)]. *)
Definition getTextRange (d : document) (r : range) : jstr :=
  let s := offsetAt d (rng_start r) in
  let e := offsetAt d (rng_end r) in
  firstn (e - s) (skipn s (getText d)).

(** [TextEditorEdit.insert(p, text)] applied to the document text. *)
Definition insertAt (d : document) (p : position) (ins : jstr) : jstr :=
  let o := offsetAt d p in
  firstn o (getText d) ++ ins ++ skipn o (getText d).

(** An editor selection: the anchor and the active (cursor) end. *)
Record selection := Sel { sel_anchor : position; sel_active : position }.

Definition sel_start (s : selection) : position :=
  if pos_before (sel_active s) (sel_anchor s) then sel_active s else sel_anchor s.

Definition sel_end (s : selection) : position :=
  if pos_before (sel_active s) (sel_anchor s) then sel_anchor s else sel_active s.

Definition isEmpty (s : selection) : bool := pos_eqb (sel_start s) (sel_end s).

Definition sel_range (s : selection) : range := Rng (sel_start s) (sel_end s).

(** ** Language configurations ([LanguageConfig], [LANGUAGE_CONFIGS]) *)

Definition jstr_eqb (a b : jstr) : bool :=
  if list_eq_dec ascii_dec a b then true else false.

(** [arr.includes(x)] on an array of strings. *)
Definition array_includes (l : list jstr) (x : jstr) : bool :=
  existsb (jstr_eqb x) l.

(** A keyword followed by at least one [\s]. *)
Definition kw_then_ws (kw r : jstr) : bool :=
  starts_with kw r &&
  match skipn (length kw) r with
  | c :: _ => is_ws c
  | [] => false
  end.

(** [/^\s*((async\s)?def|class)\s+/.test(t)]. *)
Definition python_definitionKeywords (t : jstr) : bool :=
  let r := drop_ws t in
  (starts_with (L "async") r &&
   match skipn 5 r with
   | c :: r' => is_ws c && kw_then_ws (L "def") r'
   | [] => false
   end)
  || kw_then_ws (L "def") r
  || kw_then_ws (L "class") r.

Definition to_lower (c : ascii) : ascii :=
  let n := nat_of_ascii c in
  if (65 <=? n) && (n <=? 90) then ascii_of_nat (n + 32) else c.

(** [[a-zA-Z0-9_-]] (the same class under the [i] flag). *)
Definition is_name_char (c : ascii) : bool :=
  let n := nat_of_ascii c in
  ((48 <=? n) && (n <=? 57)) || ((65 <=? n) && (n <=? 90))
  || ((97 <=? n) && (n <=? 122)) || (n =? 95) || (n =? 45).

(** [/^\s*(function|filter|workflow|configuration)\s+([a-zA-Z0-9_-]+)(?:\s*\(.*?\))?\s*/i.test(t)]:
    the trailing groups are optional, so the test succeeds as soon as a
    keyword, some [\s] and one name character are found. *)
Definition powershell_definitionKeywords (t : jstr) : bool :=
  let r := drop_ws t in
  existsb (fun kw =>
    starts_with kw (map to_lower r) &&
    match skipn (length kw) r with
    | c :: r' => is_ws c &&
        match drop_ws r' with
        | d :: _ => is_name_char d
        | [] => false
        end
    | [] => false
    end)
    [L "function"; L "filter"; L "workflow"; L "configuration"].

Record commentStyle_t := {
  cs_start : jstr;
  cs_end : jstr;
  cs_linePrefix : option jstr
}.

Record promptSettings_t := {
  ps_subject : jstr;
  ps_style : jstr;
  ps_rules : list jstr;
  ps_emptyCodeResponse : jstr
}.

Record LanguageConfig := {
  languageIds : list jstr;
  definitionKeywords : jstr -> bool;
  commentStyle : commentStyle_t;
  promptSettings : promptSettings_t
}.

Definition dquote : ascii := "034"%char.

(** The Python docstring delimiter: three double quotes. *)
Definition triple_quote : jstr := [dquote; dquote; dquote].

Definition python_config : LanguageConfig := {|
  languageIds := [L "python"];
  definitionKeywords := python_definitionKeywords;
  commentStyle := {| cs_start := triple_quote; cs_end := triple_quote; cs_linePrefix := None |};
  promptSettings := {|
    ps_subject := L "function or class";
    ps_style := L "Google's style for Python docstrings";
    ps_rules := [L "Use triple quotes.";
                 L "Do not exceed 88 characters per line, including indentation."];
    ps_emptyCodeResponse := L "Generic __init__.py." |}
|}.

Definition powershell_config : LanguageConfig := {|
  languageIds := [L "powershell"];
  definitionKeywords := powershell_definitionKeywords;
  commentStyle := {| cs_start := L "<#"; cs_end := L "#>"; cs_linePrefix := Some (L "  ") |};
  promptSettings := {|
    ps_subject := L "function";
    ps_style := L "PowerShell comment-based help";
    ps_rules := [L "Use <# and #> block comment.";
                 L "Include .SYNOPSIS, .DESCRIPTION, .PARAMETER, .EXAMPLE, and .NOTES sections.";
                 L "Block MUST have ONLY one <#, at the start, and ONLY one #>, at the end."];
    ps_emptyCodeResponse := L ".SYNOPSIS" ++ [nl] ++ L "  A brief summary of the function." |}
|}.

(** [LANGUAGE_CONFIGS], in insertion order. *)
Definition LANGUAGE_CONFIGS : list (jstr * LanguageConfig) :=
  [(L "python", python_config); (L "powershell", powershell_config)].

(** [Array.from(LANGUAGE_CONFIGS.values()).find(c => c.languageIds.includes(id))]. *)
Definition findLanguageConfig (languageId : jstr) : option LanguageConfig :=
  option_map snd
    (find (fun kc => array_includes (languageIds (snd kc)) languageId) LANGUAGE_CONFIGS).

(** ** Region detection ([getCodeToDocument]) *)

Record CodeContext := {
  code : jstr;
  isModuleLevel : bool;
  ctx_range : range;
  indentation : jstr;
  definitionLine : nat
}.

Definition msg_no_definition : jstr := L "Could not find a definition.".

(** The upward loop of case 3, from line [n] towards line 0: [Some k]
    when it breaks at line [k], [None] when [startLineNum] drops below 0. *)
Fixpoint walk_up (d : document) (cfg : LanguageConfig) (n : nat)
  : result (option nat) :=
  let* lineText := lineAt d n in
  if definitionKeywords cfg lineText then Ok (Some n)
  else if negb (ends_with (L ",") lineText) && negb (ends_with (L ":") lineText)
          && (0 <? length (trim lineText))
  then Throw msg_no_definition
  else match n with
       | 0 => Ok None
       | S m => walk_up d cfg m
       end.

(** The downward loop of case 3 over the lines from [endLineNum] on:
    the index of the first non-blank line indented at most [defIndent],
    or the line count. *)
Fixpoint walk_down (defIndent : nat) (rest : list jstr) (endLineNum : nat) : nat :=
  match rest with
  | [] => endLineNum
  | t :: rest' =>
      if negb (isEmptyOrWhitespace t) && (firstNonWhitespaceCharacterIndex t <=? defIndent)
      then endLineNum
      else walk_down defIndent rest' (S endLineNum)
  end.

Definition getCodeToDocument (d : document) (cfg : LanguageConfig) (sel : selection)
  : result (option CodeContext) :=
  if isEmpty sel && (pos_line (sel_active sel) =? 0) && (pos_char (sel_active sel) =? 0) then
    (* Case 1: module level; the word range at (0,0), if any, starts at (0,0). *)
    let* lastLine := lineAt d (lineCount d - 1) in
    Ok (Some {| code := getText d;
                isModuleLevel := true;
                ctx_range := mkRange (Pos 0 0) (Pos (lineCount d - 1) (length lastLine));
                indentation := [];
                definitionLine := 0 |})
  else if negb (isEmpty sel) then
    (* Case 2: a selection. *)
    let* defLine := lineAt d (pos_line (sel_start sel)) in
    Ok (Some {| code := getTextRange d (sel_range sel);
                isModuleLevel := false;
                ctx_range := sel_range sel;
                indentation := leading_ws defLine;
                definitionLine := pos_line (sel_start sel) |})
  else
    (* Case 3: cursor inside a function or class. *)
    let* found := walk_up d cfg (pos_line (sel_active sel)) in
    match found with
    | None => Ok None
    | Some startLineNum =>
        let* defLine := lineAt d startLineNum in
        let defIndent := firstNonWhitespaceCharacterIndex defLine in
        let endLineNum :=
          walk_down defIndent (skipn (S startLineNum) (lines d)) (S startLineNum) in
        let r := mkRange (Pos startLineNum 0) (Pos endLineNum 0) in
        Ok (Some {| code := getTextRange d r;
                    isModuleLevel := false;
                    ctx_range := r;
                    indentation := leading_ws defLine;
                    definitionLine := startLineNum |})
    end.

(** ** Insertion ([insertDocstring]) *)

(** The signature loop: starting at [signatureEndLine], advance while
    there is a next line and the current one lacks [marker].  [rest] is the
    list of lines from [signatureEndLine] on, so it has two elements or
    more exactly when [signatureEndLine < lineCount - 1]. *)
Fixpoint signature_end (marker : jstr) (rest : list jstr) (signatureEndLine : nat) : nat :=
  match rest with
  | t :: ((_ :: _) as rest') =>
      if negb (includes t marker) then signature_end marker rest' (S signatureEndLine)
      else signatureEndLine
  | _ => signatureEndLine
  end.

Definition is_blank (s : jstr) : bool :=
  match s with [] => true | _ => false end.

Definition insertDocstring (d : document) (docstring : jstr) (ctx : CodeContext)
  (cfg : LanguageConfig) : result jstr :=
  let cs := commentStyle cfg in
  if isModuleLevel ctx then
    let* firstLine := lineAt d 0 in
    let insertLine := if starts_with (L "#!") firstLine then 1 else 0 in
    Ok (insertAt d (Pos insertLine 0)
          (cs_start cs ++ [nl] ++ docstring ++ [nl] ++ cs_end cs ++ [nl; nl]))
  else
    let def := definitionLine ctx in
    let rest := skipn def (lines d) in
    let signatureEndLine :=
      if array_includes (languageIds cfg) (L "python") then signature_end (L ":") rest def
      else if array_includes (languageIds cfg) (L "powershell") then signature_end (L "{") rest def
      else def in
    let bodyIndent := indentation ctx ++ L "    " in
    let commentLinePrefix := match cs_linePrefix cs with Some p => p | None => [] end in
    let indentedDocstring :=
      bodyIndent ++ cs_start cs ++ [nl] ++
      join [nl] (map (fun line => if is_blank (trim line) then []
                                  else bodyIndent ++ commentLinePrefix ++ line)
                     (split_lines docstring)) ++
      [nl] ++ bodyIndent ++ cs_end cs ++ [nl; nl] in
    Ok (insertAt d (Pos (S signatureEndLine) 0) indentedDocstring).

(** ** Prompt ([buildPrompt]) *)

Definition buildPrompt (code : jstr) (isModuleLevel : bool) (cfg : LanguageConfig) : jstr :=
  let ps := promptSettings cfg in
  let subject := if isModuleLevel then L "module" else ps_subject ps in
  let rules := join [nl] (map (fun rule => L "- " ++ rule) (ps_rules ps)) in
  let id0 := match languageIds cfg with x :: _ => x | [] => L "undefined" end in
  L "Write a " ++ id0 ++ L " docstring for the following " ++ subject ++ L "." ++ [nl] ++
  L "- Use " ++ ps_style ps ++ L "." ++ [nl] ++
  rules ++ [nl] ++ [nl] ++
  (if isModuleLevel then L "Module" else L "Function/class") ++ L " code:" ++ [nl] ++
  code ++ [nl] ++ [nl] ++
  L "- If there is no code provided above, the docstring content MUST be '" ++
  ps_emptyCodeResponse ps ++ L "'." ++ [nl] ++ [nl] ++
  L "Output only the docstring content, not including the comment markers. CRITICALLY IMPORTANT: Do NOT repeat the original code in your response.".

(** ** Response cleanup (the end of [callGeminiAPI]) *)

Definition backtick : ascii := "096"%char.

(** [s.replace(/```(?:python|powershell)\s*|```/g, '')]; [fuel] bounds the
    number of steps, each of which consumes at least one character. *)
Fixpoint strip_fences_aux (fuel : nat) (s : jstr) : jstr :=
  match fuel with
  | 0 => s
  | S f =>
      match s with
      | c1 :: ((c2 :: c3 :: rest) as s') =>
          if Ascii.eqb c1 backtick && Ascii.eqb c2 backtick && Ascii.eqb c3 backtick then
            let rest' :=
              if starts_with (L "python") rest then drop_ws (skipn 6 rest)
              else if starts_with (L "powershell") rest then drop_ws (skipn 10 rest)
              else rest in
            strip_fences_aux f rest'
          else c1 :: strip_fences_aux f s'
      | c :: rest => c :: strip_fences_aux f rest
      | [] => []
      end
  end.

Definition strip_fences (s : jstr) : jstr := strip_fences_aux (length s) s.

(** The four steps of the cleanup, in the order of the code. *)
Definition clean_fences (s : jstr) : jstr := trim (strip_fences s).

Definition clean_quotes (s : jstr) : jstr :=
  if starts_with triple_quote s && ends_with triple_quote s
  then trim (js_substring s 3 (length s - 3)) else s.

Definition clean_open (s : jstr) : jstr :=
  if starts_with (L "<#") s then trim (js_substring s 2 (length s)) else s.

Definition clean_close (s : jstr) : jstr :=
  match last_index_of s (L "#>") with
  | Some i => trim (js_substring s 0 i)
  | None => s
  end.

Definition cleanup (s : jstr) : jstr :=
  clean_close (clean_open (clean_quotes (clean_fences s))).

(** ** The API client ([callGeminiAPI]) *)

(** What [response.json()] yields: an object with an [error] member, a
    candidates object (the text of its first part, if it is a string), or
    a body that does not parse. *)
Inductive ApiJson :=
| JsonError (message : jstr)
| JsonCandidates (firstPartText : option jstr)
| JsonInvalid (parseError : jstr).

Record Response := {
  resp_ok : bool;
  resp_status : nat;
  resp_text : jstr;
  resp_json : ApiJson
}.

(** The POST request: its URL and the prompt carried by its JSON body. *)
Record Request := { req_url : jstr; req_prompt : jstr }.

(** The backend answers a request with a response, or [fetch] rejects. *)
Definition Backend := Request -> result Response.

Definition gemini_request (endpoint apiKey prompt : jstr) : Request :=
  {| req_url := endpoint ++ L "?key=" ++ apiKey; req_prompt := prompt |}.

Definition callGeminiAPI (endpoint apiKey prompt : jstr) (backend : Backend) : result jstr :=
  let* response := backend (gemini_request endpoint apiKey prompt) in
  if negb (resp_ok response) then
    Throw (L "API request failed with status " ++ nat_to_str (resp_status response)
           ++ L ": " ++ resp_text response)
  else
    match resp_json response with
    | JsonInvalid e => Throw e
    | JsonError m => Throw (L "API returned an error: " ++ m)
    | JsonCandidates None =>
        Throw (L "Unexpected API response format. Could not extract docstring.")
    | JsonCandidates (Some docstring) => Ok (cleanup docstring)
    end.

(** ** The command handler ([generateDocstring]) *)

Record Editor := {
  ed_doc : document;
  ed_languageId : jstr;
  ed_selection : selection
}.

Record Settings := { set_model : option jstr; set_apiKey : option jstr }.

Inductive Message :=
| InfoMessage (m : jstr)
| WarningMessage (m : jstr)
| ErrorMessage (m : jstr).

(** One run of the command: the requests sent to the backend, the
    document text afterwards, and the message shown to the user. *)
Record Run := {
  run_requests : list Request;
  run_text : jstr;
  run_message : Message
}.

(** A configuration value that is a non-empty string. *)
Definition truthy (o : option jstr) : option jstr :=
  match o with
  | Some ((_ :: _) as s) => Some s
  | _ => None
  end.

Definition msg_success : jstr := L "Docstring generated successfully!".

Definition error_run (reqs : list Request) (d : document) (e : jstr) : Run :=
  {| run_requests := reqs; run_text := getText d;
     run_message := ErrorMessage (L "Error generating docstring: " ++ e) |}.

Definition gemini_endpoint (model : jstr) : jstr :=
  L "https://generativelanguage.googleapis.com/v1beta/models/" ++ model ++ L ":generateContent".

Definition generateDocstring (ed : Editor) (st : Settings) (backend : Backend) : Run :=
  let d := ed_doc ed in
  match findLanguageConfig (ed_languageId ed) with
  | None =>
      {| run_requests := []; run_text := getText d;
         run_message := WarningMessage (L "Docstring generation is not supported for '"
                                         ++ ed_languageId ed ++ L "' files.") |}
  | Some cfg =>
      match truthy (set_model st), truthy (set_apiKey st) with
      | Some model, Some apiKey =>
          let endpoint := gemini_endpoint model in
          match getCodeToDocument d cfg (ed_selection ed) with
          | Throw e => error_run [] d e
          | Ok None =>
              {| run_requests := []; run_text := getText d;
                 run_message := ErrorMessage (L "Could not determine the code to document. Please select a function/class or place your cursor inside one.") |}
          | Ok (Some ctx) =>
              if is_blank (trim (getText d)) && isModuleLevel ctx then
                match insertDocstring d (ps_emptyCodeResponse (promptSettings cfg)) ctx cfg with
                | Ok t => {| run_requests := []; run_text := t;
                             run_message := InfoMessage msg_success |}
                | Throw e => error_run [] d e
                end
              else
                let prompt := buildPrompt (code ctx) (isModuleLevel ctx) cfg in
                let reqs := [gemini_request endpoint apiKey prompt] in
                match callGeminiAPI endpoint apiKey prompt backend with
                | Throw e => error_run reqs d e
                | Ok docstring =>
                    match insertDocstring d docstring ctx cfg with
                    | Ok t => {| run_requests := reqs; run_text := t;
                                 run_message := InfoMessage msg_success |}
                    | Throw e => error_run reqs d e
                    end
                end
          end
      | _, _ =>
          {| run_requests := []; run_text := getText d;
             run_message := ErrorMessage (L "Please set 'aidocswriter.model' and 'aidocswriter.apiKey' in your settings.") |}
      end
  end.

(** ** Sample inputs *)

Definition scenarioB_doc : document :=
  mkDoc (L "def f(x):") [L "    return x"; []].

Definition cursor (l c : nat) : selection := Sel (Pos l c) (Pos l c).

Example scenarioB_walk : walk_up scenarioB_doc python_config 1 = Throw msg_no_definition.
Proof. reflexivity. Qed.

Example cleanup_sample : cleanup (L "```python  <#x#>y") = L "x".
Proof. vm_compute. reflexivity. Qed.

(** A definition followed by a line at its own indentation. *)
Definition no_body_doc : document :=
  mkDoc (L "x = 1") [L "def f():"; L "y = 2"].

(** A selection from inside line 0 to inside line 1 of [scenarioB_doc]. *)
Definition sample_selection : selection := Sel (Pos 1 6) (Pos 0 4).

(** The context module mode builds for [scenarioB_doc]. *)
Definition scenarioB_module_ctx : CodeContext := {|
  code := getText scenarioB_doc;
  isModuleLevel := true;
  ctx_range := Rng (Pos 0 0) (Pos 2 0);
  indentation := [];
  definitionLine := 0
|}.

Definition empty_doc : document := mkDoc [] [].

Definition sample_settings : Settings :=
  {| set_model := Some (L "gemini-2.0-flash"); set_apiKey := Some (L "KEY") |}.

(** The editor of Scenario B with the cursor on the definition line. *)
Definition scenarioB_editor_on_def : Editor :=
  {| ed_doc := scenarioB_doc; ed_languageId := L "python"; ed_selection := cursor 0 3 |}.

Definition quoted (s : jstr) : jstr := [dquote] ++ s ++ [dquote].

(** [{"error":{"message":"Resource has been exhausted"}}] *)
Definition sample_error_body : jstr :=
  L "{" ++ quoted (L "error") ++ L ":{" ++ quoted (L "message") ++ L ":" ++
  quoted (L "Resource has been exhausted") ++ L "}}".

(** A backend that answers every request with HTTP 429. *)
Definition backend_429 : Backend := fun _ =>
  Ok {| resp_ok := false; resp_status := 429; resp_text := sample_error_body;
        resp_json := JsonError (L "Resource has been exhausted") |}.

(** A one-line Python function with the cursor on its definition. *)
Definition pass_editor : Editor :=
  {| ed_doc := mkDoc (L "def f():") [L "    pass"]; ed_languageId := L "python";
     ed_selection := cursor 0 3 |}.

(** A backend whose answer is the given text. *)
Definition backend_text (t : jstr) : Backend := fun _ =>
  Ok {| resp_ok := true; resp_status := 200; resp_text := [];
        resp_json := JsonCandidates (Some t) |}.

(** A PowerShell function whose body brace sits on its own line. *)
Definition ps_brace_doc : document :=
  mkDoc (L "function Get-Foo") [L "{"; L "    Write-Output 1"; L "}"].

(** The context Scenario B expects detection to build. *)
Definition scenarioB_expected_ctx : CodeContext := {|
  code := getText scenarioB_doc;
  isModuleLevel := false;
  ctx_range := Rng (Pos 0 0) (Pos 3 0);
  indentation := [];
  definitionLine := 0
|}.

(** The abort condition of the upward walk on a line that is not a
    definition: non-blank and ending with neither [,] nor [:]. *)
Definition walk_aborts_on (lineText : jstr) : bool :=
  negb (ends_with (L ",") lineText) && negb (ends_with (L ":") lineText)
  && (0 <? length (trim lineText)).

(** A Python signature split over two lines. *)
Definition split_signature_doc : document :=
  mkDoc (L "def f(a,") [L "      b):"; L "    return a"].

(** Continuation lines with no definition above them. *)
Definition no_definition_doc : document :=
  mkDoc (L "x = [1,") [L "     2,"; []].

(** A PowerShell function whose parameter list spans three lines. *)
Definition ps_multiline_doc : document :=
  mkDoc (L "function Get-X(") [L "  $a"; L ") {"; L "  $a"; L "}"].

Definition ps_multiline_ctx : CodeContext := {|
  code := getText ps_multiline_doc;
  isModuleLevel := false;
  ctx_range := Rng (Pos 0 0) (Pos 5 0);
  indentation := [];
  definitionLine := 0 |}.

(** A document made of a shebang line only, and a one-line Python file
    with no line break at its end. *)
Definition shebang_only_doc : document := mkDoc (L "#!/usr/bin/env python") [].



Definition module_ctx (d : document) : CodeContext := {|
  code := getText d;
  isModuleLevel := true;
  ctx_range := Rng (Pos 0 0) (Pos 0 0);
  indentation := [];
  definitionLine := 0 |}.

(** Editors and settings for the paths of the handler. *)
Definition js_editor : Editor :=
  {| ed_doc := scenarioB_doc; ed_languageId := L "javascript"; ed_selection := cursor 0 3 |}.

Definition no_key_settings : Settings :=
  {| set_model := Some (L "gemini-2.0-flash"); set_apiKey := Some [] |}.

Definition no_definition_editor : Editor :=
  {| ed_doc := no_definition_doc; ed_languageId := L "python"; ed_selection := cursor 1 0 |}.

(** A buffer holding only blanks and a line break. *)
Definition whitespace_doc : document := mkDoc (L "  ") [[]].

Definition whitespace_editor : Editor :=
  {| ed_doc := whitespace_doc; ed_languageId := L "powershell"; ed_selection := cursor 0 0 |}.

(** [getLanguageConfig]: the loop over [LANGUAGE_CONFIGS.values()] that
    returns the first configuration listing the id. *)
Fixpoint getLanguageConfig_loop (configs : list LanguageConfig) (languageId : jstr)
  : option LanguageConfig :=
  match configs with
  | [] => None
  | config :: rest =>
      if array_includes (languageIds config) languageId then Some config
      else getLanguageConfig_loop rest languageId
  end.

Definition getLanguageConfig (languageId : jstr) : option LanguageConfig :=
  getLanguageConfig_loop (map snd LANGUAGE_CONFIGS) languageId.

(** ** The earlier, Python-only version of the extension *)

Module Legacy.

Definition EXTENSION_CONFIG_KEY : jstr := L "geminiDoc".
Definition API_ENDPOINT_KEY : jstr := L "apiEndpoint".
Definition API_KEY_KEY : jstr := L "apiKey".

(** [/^\s*((async)?\s*def|class)\s+/.test(t)]. *)
Definition definitionRegex (t : jstr) : bool :=
  let r := drop_ws t in
  (starts_with (L "async") r && kw_then_ws (L "def") (drop_ws (skipn 5 r)))
  || kw_then_ws (L "def") r
  || kw_then_ws (L "class") r.

(** The upward loop of case 3: it only looks for a definition line. *)
Fixpoint walk_up (d : document) (n : nat) : result (option nat) :=
  let* lineText := lineAt d n in
  if definitionRegex lineText then Ok (Some n)
  else match n with
       | 0 => Ok None
       | S m => walk_up d m
       end.

Definition getCodeToDocument (d : document) (sel : selection) : result (option CodeContext) :=
  if isEmpty sel && (pos_line (sel_active sel) =? 0) && (pos_char (sel_active sel) =? 0) then
    let* lastLine := lineAt d (lineCount d - 1) in
    Ok (Some {| code := getText d;
                isModuleLevel := true;
                ctx_range := mkRange (Pos 0 0) (Pos (lineCount d - 1) (length lastLine));
                indentation := [];
                definitionLine := 0 |})
  else if negb (isEmpty sel) then
    let* defLine := lineAt d (pos_line (sel_start sel)) in
    Ok (Some {| code := getTextRange d (sel_range sel);
                isModuleLevel := false;
                ctx_range := sel_range sel;
                indentation := leading_ws defLine;
                definitionLine := pos_line (sel_start sel) |})
  else
    let* found := walk_up d (pos_line (sel_active sel)) in
    match found with
    | None => Ok None
    | Some startLineNum =>
        let* defLine := lineAt d startLineNum in
        let defIndent := firstNonWhitespaceCharacterIndex defLine in
        let endLineNum :=
          walk_down defIndent (skipn (S startLineNum) (lines d)) (S startLineNum) in
        let r := mkRange (Pos startLineNum 0) (Pos endLineNum 0) in
        Ok (Some {| code := getTextRange d r;
                    isModuleLevel := false;
                    ctx_range := r;
                    indentation := leading_ws defLine;
                    definitionLine := startLineNum |})
    end.

Definition insertDocstring (d : document) (docstring : jstr) (ctx : CodeContext) : result jstr :=
  if isModuleLevel ctx then
    let* firstLine := lineAt d 0 in
    let insertLine := if starts_with (L "#!") firstLine then 1 else 0 in
    Ok (insertAt d (Pos insertLine 0) (docstring ++ [nl; nl]))
  else
    let def := definitionLine ctx in
    let signatureEndLine := signature_end (L ":") (skipn def (lines d)) def in
    let bodyIndent := indentation ctx ++ L "    " in
    let indentedDocstring :=
      join [nl] (map (fun line => if is_blank (trim line) then [] else bodyIndent ++ line)
                     (split_lines docstring)) ++ [nl] in
    Ok (insertAt d (Pos (S signatureEndLine) 0) indentedDocstring).

Definition buildPrompt (code : jstr) (isModuleLevel : bool) : jstr :=
  let subject := if isModuleLevel then L "module" else L "function or class" in
  L "Write a Python docstring for the following " ++ subject ++ L "." ++ [nl] ++
  L "- Use triple quotes." ++ [nl] ++
  L "- Follow Google's style for Python docstrings." ++ [nl] ++
  L "- Do not exceed 88 characters per line, including indentation." ++ [nl] ++ [nl] ++
  (if isModuleLevel then L "Module" else L "Function/class") ++ L " code:" ++ [nl] ++
  code ++ [nl] ++ [nl] ++
  L "- If there is no code provided above, the docstring MUST be 'Generic __init__.py.', a single line, without description, nor summary." ++ [nl] ++
  L "- The above rule is important, if no code, the docstring MUST be, only, really, ONLY 'Generic __init__.py.' triple quoted." ++ [nl] ++ [nl] ++
  L "Output only the docstring including the triple quotes.".

(** The fence replacement of this version: each run of three backticks is
    removed together with a [python] right after it and the [\s] run that
    follows; fuel as for the current version. *)
Fixpoint strip_fences_aux (fuel : nat) (s : jstr) : jstr :=
  match fuel with
  | 0 => s
  | S f =>
      match s with
      | c1 :: ((c2 :: c3 :: rest) as s') =>
          if Ascii.eqb c1 backtick && Ascii.eqb c2 backtick && Ascii.eqb c3 backtick then
            let rest' :=
              if starts_with (L "python") rest then drop_ws (skipn 6 rest) else rest in
            strip_fences_aux f rest'
          else c1 :: strip_fences_aux f s'
      | c :: rest => c :: strip_fences_aux f rest
      | [] => []
      end
  end.

Definition cleanup (s : jstr) : jstr := trim (strip_fences_aux (length s) s).

Definition callGeminiAPI (endpoint apiKey prompt : jstr) (backend : Backend) : result jstr :=
  let* response := backend (gemini_request endpoint apiKey prompt) in
  if negb (resp_ok response) then
    Throw (L "API request failed with status " ++ nat_to_str (resp_status response)
           ++ L ": " ++ resp_text response)
  else
    match resp_json response with
    | JsonInvalid e => Throw e
    | JsonError m => Throw (L "API returned an error: " ++ m)
    | JsonCandidates None =>
        Throw (L "Unexpected API response format. Could not extract docstring.")
    | JsonCandidates (Some docstring) => Ok (cleanup docstring)
    end.

(** The settings of this version: the endpoint URL and the key. *)
Record Settings := { set_apiEndpoint : option jstr; set_apiKey : option jstr }.

Definition generic_init_docstring : jstr :=
  triple_quote ++ L "Generic __init__.py." ++ triple_quote.

Definition generateDocstring (ed : Editor) (st : Settings) (backend : Backend) : Run :=
  let d := ed_doc ed in
  if negb (jstr_eqb (ed_languageId ed) (L "python")) then
    {| run_requests := []; run_text := getText d;
       run_message := WarningMessage (L "This command is intended for Python files.") |}
  else
    match truthy (set_apiEndpoint st), truthy (set_apiKey st) with
    | Some endpoint, Some apiKey =>
        match getCodeToDocument d (ed_selection ed) with
        | Throw e => error_run [] d e
        | Ok None =>
            {| run_requests := []; run_text := getText d;
               run_message := ErrorMessage (L "Could not determine the code to document. Please select a function/class or place your cursor inside one.") |}
        | Ok (Some ctx) =>
            if is_blank (trim (getText d)) && isModuleLevel ctx then
              match insertDocstring d generic_init_docstring ctx with
              | Ok t => {| run_requests := []; run_text := t;
                           run_message := InfoMessage msg_success |}
              | Throw e => error_run [] d e
              end
            else
              let prompt := buildPrompt (code ctx) (isModuleLevel ctx) in
              let reqs := [gemini_request endpoint apiKey prompt] in
              match callGeminiAPI endpoint apiKey prompt backend with
              | Throw e => error_run reqs d e
              | Ok docstring =>
                  match insertDocstring d docstring ctx with
                  | Ok t => {| run_requests := reqs; run_text := t;
                               run_message := InfoMessage msg_success |}
                  | Throw e => error_run reqs d e
                  end
              end
        end
    | _, _ =>
        {| run_requests := []; run_text := getText d;
           run_message := ErrorMessage (L "Please set '" ++ EXTENSION_CONFIG_KEY ++ L "." ++
                                        API_ENDPOINT_KEY ++ L "' and '" ++ EXTENSION_CONFIG_KEY ++
                                        L "." ++ API_KEY_KEY ++ L "' in your settings.") |}
    end.

Definition sample_settings : Settings :=
  {| set_apiEndpoint := Some (L "https://example.invalid/v1/models/m:generateContent");
     set_apiKey := Some (L "KEY") |}.

Definition scenarioB_editor : Editor :=
  {| ed_doc := scenarioB_doc; ed_languageId := L "python"; ed_selection := cursor 1 4 |}.

Definition blank_editor : Editor :=
  {| ed_doc := whitespace_doc; ed_languageId := L "python"; ed_selection := cursor 0 0 |}.

End Legacy.

(** * Lemmas on lists and documents *)

Section ListFacts.
Context {A : Type}.

Lemma firstn_S_nth (l : list A) (k : nat) (t : A) :
  nth_error l k = Some t -> firstn (S k) l = firstn k l ++ [t].
Proof.
  revert k; induction l as [|x l IH]; intros [|k] H; simpl in *; try discriminate.
  - injection H as ->; reflexivity.
  - rewrite (IH k H); reflexivity.
Qed.

Lemma skipn_nth (l : list A) (k : nat) (t : A) :
  nth_error l k = Some t -> skipn k l = t :: skipn (S k) l.
Proof.
  revert k; induction l as [|x l IH]; intros [|k] H; simpl in *; try discriminate.
  - injection H as ->; reflexivity.
  - apply IH; exact H.
Qed.

Lemma skipn_nth_none (l : list A) (k : nat) :
  nth_error l k = None -> skipn k l = [].
Proof.
  revert k; induction l as [|x l IH]; intros [|k] H; simpl in *; try discriminate; auto.
Qed.

End ListFacts.

Lemma join_cons (sep t : jstr) (r : list jstr) :
  join sep (t :: r) = t ++ match r with [] => [] | _ :: _ => sep ++ join sep r end.
Proof. destruct r; simpl; [rewrite app_nil_r|]; reflexivity. Qed.

Lemma join_firstn (sep : jstr) (ls : list jstr) (k : nat) :
  k < length ls ->
  join sep ls = concat (map (fun l => l ++ sep) (firstn k ls)) ++ join sep (skipn k ls).
Proof.
  revert k; induction ls as [|x r IH]; intros k Hk; [simpl in Hk; lia|].
  destruct k as [|k]; [reflexivity|].
  simpl in Hk. destruct r as [|y r']; [simpl in Hk; lia|].
  change (join sep (x :: y :: r')) with (x ++ sep ++ join sep (y :: r')).
  rewrite (IH k) by lia. simpl. rewrite !app_assoc. reflexivity.
Qed.

(** The text of a document around its line [k]. *)
Lemma getText_at_line (d : document) (k : nat) (t : jstr) :
  nth_error (lines d) k = Some t ->
  getText d =
    concat (map (fun l => l ++ [nl]) (firstn k (lines d))) ++ t ++
    match nth_error (lines d) (S k) with
    | Some _ => nl :: join [nl] (skipn (S k) (lines d))
    | None => []
    end.
Proof.
  intros H. unfold getText.
  assert (Hk : k < length (lines d)) by (apply nth_error_Some; congruence).
  rewrite (join_firstn _ _ k Hk), (skipn_nth _ _ _ H), join_cons.
  f_equal. f_equal.
  destruct (nth_error (lines d) (S k)) eqn:E.
  - rewrite (skipn_nth _ _ _ E). reflexivity.
  - rewrite (skipn_nth_none _ _ E). reflexivity.
Qed.

Lemma line_start_at (d : document) (k : nat) (t : jstr) :
  nth_error (lines d) k = Some t ->
  line_start d k = length (concat (map (fun l => l ++ [nl]) (firstn k (lines d)))).
Proof. reflexivity. Qed.

Lemma line_start_S (d : document) (k : nat) (t : jstr) :
  nth_error (lines d) k = Some t -> line_start d (S k) = line_start d k + length t + 1.
Proof.
  intros H. unfold line_start. rewrite (firstn_S_nth _ _ _ H), map_app, concat_app.
  rewrite length_app. simpl. rewrite !length_app. simpl.
  rewrite Nat.add_0_r, Nat.add_assoc. reflexivity.
Qed.

Lemma line_start_mono (d : document) (k k' : nat) :
  k <= k' -> line_start d k <= line_start d k'.
Proof.
  intros Hle. unfold line_start.
  rewrite <- (firstn_skipn k (firstn k' (lines d))).
  rewrite firstn_firstn, Nat.min_l by exact Hle.
  rewrite map_app, concat_app, length_app. lia.
Qed.

Lemma line_end_le_text (d : document) (k : nat) (t : jstr) :
  nth_error (lines d) k = Some t -> line_start d k + length t <= length (getText d).
Proof.
  intros H. rewrite (getText_at_line _ _ _ H), (line_start_at _ _ _ H).
  rewrite !length_app. lia.
Qed.

Lemma offsetAt_le_text (d : document) (p : position) :
  offsetAt d p <= length (getText d).
Proof.
  unfold offsetAt. destruct (nth_error (lines d) (pos_line p)) as [t|] eqn:E; [|lia].
  pose proof (line_end_le_text _ _ _ E). lia.
Qed.

(** Offsets respect the order of positions. *)
Lemma offsetAt_mono (d : document) (p q : position) :
  pos_before q p = false -> offsetAt d p <= offsetAt d q.
Proof.
  unfold pos_before. intros H.
  apply orb_false_iff in H as [H1 H2].
  apply Nat.ltb_ge in H1.
  unfold offsetAt.
  destruct (nth_error (lines d) (pos_line q)) as [tq|] eqn:Eq.
  2:{ apply offsetAt_le_text. }
  destruct (nth_error (lines d) (pos_line p)) as [tp|] eqn:Ep.
  2:{ exfalso. apply nth_error_None in Ep.
       assert (pos_line q < length (lines d)) by (apply nth_error_Some; congruence). lia. }
  destruct (Nat.eq_dec (pos_line q) (pos_line p)) as [Heq|Hne].
  - rewrite Heq in Eq, H2 |- *. rewrite Ep in Eq. injection Eq as Heqt. subst tq.
    rewrite Nat.eqb_refl in H2. simpl in H2. apply Nat.ltb_ge in H2.
    pose proof (Nat.min_le_compat_r _ _ (length tp) H2). lia.
  - assert (Hlt : S (pos_line p) <= pos_line q) by lia.
    pose proof (line_start_mono d _ _ Hlt).
    pose proof (line_start_S _ _ _ Ep).
    pose proof (Nat.le_min_r (pos_char p) (length tp)). lia.
Qed.

Lemma firstn_skipn_middle (l : list ascii) (s e : nat) :
  s <= e -> e <= length l ->
  l = firstn s l ++ firstn (e - s) (skipn s l) ++ skipn e l.
Proof.
  intros H1 H2.
  rewrite <- (firstn_skipn s l) at 1. f_equal.
  rewrite <- (firstn_skipn (e - s) (skipn s l)) at 1. f_equal.
  rewrite skipn_skipn. f_equal. lia.
Qed.

Lemma pos_before_asym (p q : position) :
  pos_before p q = true -> pos_before q p = false.
Proof.
  unfold pos_before. intros H.
  apply orb_true_iff in H as [H|H].
  - apply Nat.ltb_lt in H.
    rewrite (proj2 (Nat.ltb_ge _ _)) by lia.
    rewrite (proj2 (Nat.eqb_neq _ _)) by lia. reflexivity.
  - apply andb_true_iff in H as [H1 H2].
    apply Nat.eqb_eq in H1. apply Nat.ltb_lt in H2.
    rewrite H1, Nat.ltb_irrefl, Nat.eqb_refl.
    rewrite (proj2 (Nat.ltb_ge _ _)) by lia. reflexivity.
Qed.

Lemma sel_ordered (s : selection) : pos_before (sel_end s) (sel_start s) = false.
Proof.
  unfold sel_start, sel_end.
  destruct (pos_before (sel_active s) (sel_anchor s)) eqn:E; [|exact E].
  apply pos_before_asym; exact E.
Qed.

(** The text of the range from the start of line [k] to the start of the
    next line: line [k] with its LF, or line [k] alone when it is the last. *)
Lemma getTextRange_one_line (d : document) (k : nat) (t : jstr) :
  nth_error (lines d) k = Some t ->
  getTextRange d (Rng (Pos k 0) (Pos (S k) 0)) =
    t ++ match nth_error (lines d) (S k) with Some _ => [nl] | None => [] end.
Proof.
  intros Ht. unfold getTextRange, offsetAt. cbn [pos_line pos_char rng_start rng_end].
  rewrite Ht. rewrite Nat.add_0_r.
  pose proof (getText_at_line _ _ _ Ht) as Htext.
  rewrite (line_start_at _ _ _ Ht).
  set (P := concat (map (fun l => l ++ [nl]) (firstn k (lines d)))) in *.
  destruct (nth_error (lines d) (S k)) as [u|] eqn:Eu.
  - rewrite Nat.add_0_r, (line_start_S _ _ _ Ht), (line_start_at _ _ _ Ht).
    fold P. rewrite Htext, skipn_app, skipn_all, Nat.sub_diag, skipn_O, app_nil_l.
    replace (length P + length t + 1 - length P) with (length t + 1) by lia.
    rewrite firstn_app, firstn_all2 by lia.
    replace (length t + 1 - length t) with 1 by lia. reflexivity.
  - rewrite Htext, skipn_app, skipn_all, Nat.sub_diag, skipn_O, app_nil_l.
    rewrite !app_nil_r, length_app, firstn_all2 by lia. reflexivity.
Qed.

Lemma insertAt_splice (d : document) (p : position) (ins : jstr) :
  exists o blk, o <= length (getText d) /\
    insertAt d p ins = firstn o (getText d) ++ blk ++ skipn o (getText d).
Proof.
  exists (offsetAt d p), ins. split; [apply offsetAt_le_text | reflexivity].
Qed.

(** * Region detection *)

(** C5: with an empty selection and the cursor at (0,0), detection yields
    the whole buffer text as code, at module level, with empty indentation
    and definition line 0; every document, the empty one included. *)
Theorem module_mode_whole_buffer (d : document) (cfg : LanguageConfig) (sel : selection)
  (Hempty : isEmpty sel = true) (Hcursor : sel_active sel = Pos 0 0) :
  exists ctx, getCodeToDocument d cfg sel = Ok (Some ctx) /\
    code ctx = getText d /\ isModuleLevel ctx = true /\
    indentation ctx = [] /\ definitionLine ctx = 0.
Proof.
  unfold getCodeToDocument. rewrite Hempty, Hcursor. cbn [pos_line pos_char andb Nat.eqb].
  unfold lineAt.
  destruct (nth_error (lines d) (lineCount d - 1)) as [last|] eqn:E.
  - eexists. split; [reflexivity|]. repeat split.
  - exfalso. apply nth_error_None in E. unfold lineCount, lines in E. simpl in E. lia.
Qed.

Lemma module_mode_whole_buffer_witness :
  exists ctx, getCodeToDocument (mkDoc [] []) python_config (cursor 0 0) = Ok (Some ctx) /\
    code ctx = [] /\ isModuleLevel ctx = true /\ indentation ctx = [] /\ definitionLine ctx = 0.
Proof.
  apply (module_mode_whole_buffer (mkDoc [] []) python_config (cursor 0 0));
    reflexivity.
Defined.

(** C6: a non-empty selection yields exactly the selected text, which
    together with the text before and after it gives back the buffer; the
    indentation is that of the line where the selection starts and the
    definition line is that line. *)
Theorem selection_mode_exact (d : document) (cfg : LanguageConfig) (sel : selection)
  (Hanchor : pos_line (sel_anchor sel) < lineCount d)
  (Hactive : pos_line (sel_active sel) < lineCount d)
  (Hne : isEmpty sel = false) :
  exists t, nth_error (lines d) (pos_line (sel_start sel)) = Some t /\
    getCodeToDocument d cfg sel =
      Ok (Some {| code := getTextRange d (sel_range sel);
                  isModuleLevel := false;
                  ctx_range := sel_range sel;
                  indentation := leading_ws t;
                  definitionLine := pos_line (sel_start sel) |}) /\
    getText d = firstn (offsetAt d (sel_start sel)) (getText d)
                ++ getTextRange d (sel_range sel)
                ++ skipn (offsetAt d (sel_end sel)) (getText d).
Proof.
  assert (Hs : pos_line (sel_start sel) < lineCount d)
    by (unfold sel_start; destruct (pos_before _ _); assumption).
  destruct (nth_error (lines d) (pos_line (sel_start sel))) as [t|] eqn:E.
  2:{ apply nth_error_None in E. unfold lineCount in Hs. lia. }
  exists t. split; [reflexivity|]. split.
  - unfold getCodeToDocument. rewrite Hne. cbn [andb negb].
    unfold lineAt. rewrite E. reflexivity.
  - unfold getTextRange, sel_range. cbn [rng_start rng_end].
    apply firstn_skipn_middle.
    + apply offsetAt_mono, sel_ordered.
    + apply offsetAt_le_text.
Qed.

Lemma selection_mode_exact_witness :
  exists t, nth_error (lines scenarioB_doc) (pos_line (sel_start sample_selection)) = Some t /\
    getCodeToDocument scenarioB_doc python_config sample_selection =
      Ok (Some {| code := getTextRange scenarioB_doc (sel_range sample_selection);
                  isModuleLevel := false;
                  ctx_range := sel_range sample_selection;
                  indentation := leading_ws t;
                  definitionLine := pos_line (sel_start sample_selection) |}) /\
    getText scenarioB_doc =
      firstn (offsetAt scenarioB_doc (sel_start sample_selection)) (getText scenarioB_doc)
      ++ getTextRange scenarioB_doc (sel_range sample_selection)
      ++ skipn (offsetAt scenarioB_doc (sel_end sample_selection)) (getText scenarioB_doc).
Proof.
  apply (selection_mode_exact scenarioB_doc python_config sample_selection);
    vm_compute; (reflexivity || lia).
Defined.

Lemma walk_down_stops_at_next (d : document) (k : nat) (defIndent : nat) :
  match nth_error (lines d) (S k) with
  | None => True
  | Some u => isEmptyOrWhitespace u = false /\ firstNonWhitespaceCharacterIndex u <= defIndent
  end ->
  walk_down defIndent (skipn (S k) (lines d)) (S k) = S k.
Proof.
  destruct (nth_error (lines d) (S k)) as [u|] eqn:E; intros H.
  - rewrite (skipn_nth _ _ _ E). destruct H as [H1 H2]. simpl.
    rewrite H1. apply Nat.leb_le in H2. rewrite H2. reflexivity.
  - rewrite (skipn_nth_none _ _ E). reflexivity.
Qed.

(** C3 (as the code has it): when the definition found by the upward walk
    is followed by a non-blank line indented no deeper, or by the end of
    the document, detection succeeds and the code is the definition line
    itself, with its line break when a line follows. *)
Theorem definition_without_body (d : document) (cfg : LanguageConfig) (sel : selection)
  (k : nat) (t : jstr)
  (Hempty : isEmpty sel = true)
  (Hnot00 : (pos_line (sel_active sel) =? 0) && (pos_char (sel_active sel) =? 0) = false)
  (Hfound : walk_up d cfg (pos_line (sel_active sel)) = Ok (Some k))
  (Ht : nth_error (lines d) k = Some t)
  (Hnext : match nth_error (lines d) (S k) with
           | None => True
           | Some u => isEmptyOrWhitespace u = false /\
                       firstNonWhitespaceCharacterIndex u <= firstNonWhitespaceCharacterIndex t
           end) :
  exists ctx, getCodeToDocument d cfg sel = Ok (Some ctx) /\
    code ctx = t ++ match nth_error (lines d) (S k) with Some _ => [nl] | None => [] end /\
    isModuleLevel ctx = false /\ definitionLine ctx = k.
Proof.
  unfold getCodeToDocument.
  rewrite Hempty. cbn [andb negb]. rewrite Hnot00, Hfound. cbn [bind].
  unfold lineAt. rewrite Ht. cbn [bind].
  rewrite (walk_down_stops_at_next d k _ Hnext).
  assert (Hr : mkRange (Pos k 0) (Pos (S k) 0) = Rng (Pos k 0) (Pos (S k) 0)).
  { unfold mkRange, pos_before. cbn [pos_line pos_char].
    rewrite (proj2 (Nat.ltb_ge _ _)) by lia.
    rewrite (proj2 (Nat.eqb_neq _ _)) by lia. reflexivity. }
  rewrite Hr. eexists. split; [reflexivity|].
  cbn [code isModuleLevel definitionLine].
  split; [apply getTextRange_one_line; exact Ht | split; reflexivity].
Qed.

Lemma definition_without_body_witness :
  exists ctx, getCodeToDocument no_body_doc python_config (cursor 1 0) = Ok (Some ctx) /\
    code ctx = L "def f():" ++ [nl] /\ isModuleLevel ctx = false /\ definitionLine ctx = 1.
Proof.
  apply (definition_without_body no_body_doc python_config (cursor 1 0) 1 (L "def f():"));
    vm_compute; try reflexivity; split; reflexivity || lia.
Defined.

(** The code claimed empty is not: the definition line is in it. *)
Lemma definition_without_body_not_empty :
  getCodeToDocument no_body_doc python_config (cursor 1 0) =
    Ok (Some {| code := L "def f():" ++ [nl];
                isModuleLevel := false;
                ctx_range := Rng (Pos 1 0) (Pos 2 0);
                indentation := [];
                definitionLine := 1 |}).
Proof. vm_compute. reflexivity. Qed.

(** * Insertion *)

(** C8: every insertion splices one block of text into the document text
    at one offset; nothing of the previous text is removed or moved. *)
Theorem insertion_is_pure_splice (d : document) (docstring : jstr) (ctx : CodeContext)
  (cfg : LanguageConfig) (t' : jstr)
  (Hins : insertDocstring d docstring ctx cfg = Ok t') :
  exists o blk, o <= length (getText d) /\
    t' = firstn o (getText d) ++ blk ++ skipn o (getText d).
Proof.
  unfold insertDocstring in Hins.
  destruct (isModuleLevel ctx).
  - unfold lineAt in Hins. destruct (nth_error (lines d) 0) as [l0|]; [|discriminate].
    cbn [bind] in Hins. injection Hins as <-. apply insertAt_splice.
  - injection Hins as <-. apply insertAt_splice.
Qed.

Lemma insertion_is_pure_splice_witness :
  exists t', insertDocstring scenarioB_doc (L "Doc.") scenarioB_module_ctx python_config = Ok t' /\
  exists o blk, o <= length (getText scenarioB_doc) /\
    t' = firstn o (getText scenarioB_doc) ++ blk ++ skipn o (getText scenarioB_doc).
Proof.
  eexists. split; [reflexivity|].
  apply (insertion_is_pure_splice scenarioB_doc (L "Doc.") scenarioB_module_ctx python_config).
  reflexivity.
Defined.

(** * The command handler *)

(** C7: on the empty document with the cursor at (0,0), whatever the
    backend, no request is sent and the text inserted is the profile's
    [emptyCodeResponse] between the comment delimiters. *)
Theorem empty_module_short_circuit (languageId : jstr) (cfg : LanguageConfig)
  (st : Settings) (model apiKey : jstr)
  (Hcfg : findLanguageConfig languageId = Some cfg)
  (Hmodel : truthy (set_model st) = Some model)
  (Hkey : truthy (set_apiKey st) = Some apiKey) :
  forall backend : Backend,
    generateDocstring {| ed_doc := empty_doc; ed_languageId := languageId;
                         ed_selection := cursor 0 0 |} st backend =
    {| run_requests := [];
       run_text := cs_start (commentStyle cfg) ++ [nl] ++
                   ps_emptyCodeResponse (promptSettings cfg) ++ [nl] ++
                   cs_end (commentStyle cfg) ++ [nl; nl];
       run_message := InfoMessage msg_success |}.
Proof.
  intros backend. unfold generateDocstring. cbn [ed_doc ed_languageId ed_selection].
  rewrite Hcfg, Hmodel, Hkey.
  unfold insertDocstring, insertAt. cbn. rewrite !app_nil_r. reflexivity.
Qed.

Lemma empty_module_short_circuit_witness :
  findLanguageConfig (L "python") = Some python_config /\
  generateDocstring {| ed_doc := empty_doc; ed_languageId := L "python";
                       ed_selection := cursor 0 0 |} sample_settings backend_429 =
    {| run_requests := [];
       run_text := triple_quote ++ [nl] ++ L "Generic __init__.py." ++ [nl] ++
                   triple_quote ++ [nl; nl];
       run_message := InfoMessage msg_success |}.
Proof.
  split; [reflexivity|].
  apply (empty_module_short_circuit (L "python") python_config sample_settings
           (L "gemini-2.0-flash") (L "KEY")); reflexivity.
Defined.

(** C9: when the backend answers with a non-success status, the run ends
    with the error of [callGeminiAPI], carrying the status and the whole
    response body, and the document text is unchanged. *)
Theorem backend_failure_leaves_buffer (ed : Editor) (st : Settings) (backend : Backend)
  (cfg : LanguageConfig) (model apiKey : jstr) (ctx : CodeContext) (resp : Response)
  (Hcfg : findLanguageConfig (ed_languageId ed) = Some cfg)
  (Hmodel : truthy (set_model st) = Some model)
  (Hkey : truthy (set_apiKey st) = Some apiKey)
  (Hdet : getCodeToDocument (ed_doc ed) cfg (ed_selection ed) = Ok (Some ctx))
  (Hgen : is_blank (trim (getText (ed_doc ed))) && isModuleLevel ctx = false)
  (Hresp : backend (gemini_request (gemini_endpoint model) apiKey
                      (buildPrompt (code ctx) (isModuleLevel ctx) cfg)) = Ok resp)
  (Hfail : resp_ok resp = false) :
  generateDocstring ed st backend =
    {| run_requests := [gemini_request (gemini_endpoint model) apiKey
                          (buildPrompt (code ctx) (isModuleLevel ctx) cfg)];
       run_text := getText (ed_doc ed);
       run_message := ErrorMessage (L "Error generating docstring: " ++
                        L "API request failed with status " ++
                        nat_to_str (resp_status resp) ++ L ": " ++ resp_text resp) |}.
Proof.
  unfold generateDocstring. rewrite Hcfg, Hmodel, Hkey, Hdet, Hgen.
  unfold callGeminiAPI. rewrite Hresp. cbn [bind]. rewrite Hfail. reflexivity.
Qed.

Lemma backend_failure_leaves_buffer_witness :
  generateDocstring scenarioB_editor_on_def sample_settings backend_429 =
    {| run_requests := [gemini_request (gemini_endpoint (L "gemini-2.0-flash")) (L "KEY")
                          (buildPrompt (getText scenarioB_doc) false python_config)];
       run_text := getText scenarioB_doc;
       run_message := ErrorMessage (L "Error generating docstring: " ++
                        L "API request failed with status " ++ L "429" ++ L ": " ++
                        sample_error_body) |}.
Proof.
  apply (backend_failure_leaves_buffer scenarioB_editor_on_def sample_settings backend_429
           python_config (L "gemini-2.0-flash") (L "KEY")
           {| code := getText scenarioB_doc; isModuleLevel := false;
              ctx_range := Rng (Pos 0 0) (Pos 3 0); indentation := [];
              definitionLine := 0 |}
           {| resp_ok := false; resp_status := 429; resp_text := sample_error_body;
              resp_json := JsonError (L "Resource has been exhausted") |});
    vm_compute; reflexivity.
Defined.

(** * Response cleanup *)

Lemma drop_ws_idem (x : jstr) : drop_ws (drop_ws x) = drop_ws x.
Proof.
  induction x as [|c x IH]; [reflexivity|]. simpl.
  destruct (is_ws c) eqn:E; [exact IH|]. simpl. rewrite E. reflexivity.
Qed.

Lemma drop_ws_head (x : jstr) :
  drop_ws x = [] \/ exists c r, drop_ws x = c :: r /\ is_ws c = false.
Proof.
  induction x as [|c x IH]; [left; reflexivity|]. simpl.
  destruct (is_ws c) eqn:E; [exact IH|]. right. exists c, x. split; [reflexivity|exact E].
Qed.

Lemma drop_ws_snoc (l : jstr) (c : ascii) :
  is_ws c = false -> drop_ws (l ++ [c]) = drop_ws l ++ [c].
Proof.
  intros Hc. induction l as [|a l IH]; simpl.
  - rewrite Hc. reflexivity.
  - destruct (is_ws a); [exact IH|reflexivity].
Qed.

Lemma drop_ws_end_cons (c : ascii) (r : jstr) :
  is_ws c = false -> drop_ws_end (c :: r) = c :: drop_ws_end r.
Proof.
  intros Hc. unfold drop_ws_end. simpl. rewrite (drop_ws_snoc _ _ Hc), rev_app_distr.
  reflexivity.
Qed.

Lemma drop_ws_end_idem (y : jstr) : drop_ws_end (drop_ws_end y) = drop_ws_end y.
Proof. unfold drop_ws_end. rewrite rev_involutive, drop_ws_idem. reflexivity. Qed.

Lemma drop_ws_trim (x : jstr) : drop_ws (trim x) = trim x.
Proof.
  unfold trim. destruct (drop_ws_head x) as [H|(c & r & H & Hc)]; rewrite H.
  - reflexivity.
  - rewrite (drop_ws_end_cons _ _ Hc). simpl. rewrite Hc. reflexivity.
Qed.

Lemma trim_idem (x : jstr) : trim (trim x) = trim x.
Proof.
  unfold trim at 1. rewrite drop_ws_trim. unfold trim. apply drop_ws_end_idem.
Qed.

(** Every stage of the cleanup returns trimmed text. *)
Lemma cleanup_trimmed (s : jstr) : trim (cleanup s) = cleanup s.
Proof.
  assert (P1 : trim (clean_fences s) = clean_fences s) by apply trim_idem.
  assert (P2 : trim (clean_quotes (clean_fences s)) = clean_quotes (clean_fences s)).
  { unfold clean_quotes. destruct (_ && _); [apply trim_idem|exact P1]. }
  assert (P3 : trim (clean_open (clean_quotes (clean_fences s)))
               = clean_open (clean_quotes (clean_fences s))).
  { unfold clean_open. destruct (starts_with _ _); [apply trim_idem|exact P2]. }
  unfold cleanup, clean_close at 1 2.
  destruct (last_index_of _ _); [apply trim_idem|exact P3].
Qed.

Lemma includes_tail (c : ascii) (r p : jstr) :
  includes (c :: r) p = false -> includes r p = false.
Proof. simpl. intros H. apply orb_false_iff in H. apply H. Qed.

(** Without a run of three backticks, the fence replacement changes nothing. *)
Lemma strip_fences_aux_no_fence (f : nat) (t : jstr) :
  includes t (L "```") = false -> strip_fences_aux f t = t.
Proof.
  revert t; induction f as [|f IH]; intros t H; [reflexivity|].
  destruct t as [|c1 [|c2 [|c3 rest]]]; [reflexivity| | |].
  - cbn [strip_fences_aux]. rewrite IH; [reflexivity|reflexivity].
  - cbn [strip_fences_aux]. rewrite IH; [reflexivity|].
    apply (includes_tail c1). exact H.
  - cbn [strip_fences_aux].
    assert (Hb : Ascii.eqb c1 backtick && Ascii.eqb c2 backtick && Ascii.eqb c3 backtick = false).
    { simpl in H. apply orb_false_iff in H as [H _].
      rewrite (Ascii.eqb_sym c1), (Ascii.eqb_sym c2), (Ascii.eqb_sym c3).
      unfold backtick. rewrite !andb_true_r in H. rewrite <- andb_assoc. exact H. }
    rewrite Hb, IH; [reflexivity|]. apply (includes_tail c1). exact H.
Qed.

Lemma js_substring_0 (s : jstr) (j : nat) : js_substring s 0 j = firstn j s.
Proof.
  unfold js_substring. rewrite Nat.min_0_l, Nat.max_0_l, Nat.min_0_l, Nat.sub_0_r, skipn_O.
  destruct (Nat.le_ge_cases j (length s)).
  - rewrite Nat.min_l by exact H. reflexivity.
  - rewrite Nat.min_r by exact H. rewrite !firstn_all2 by lia. reflexivity.
Qed.

(** C4 refuted: cleanup strips one leading [<#] per pass, so a second
    pass strips another one. *)
Lemma cleanup_not_idempotent :
  cleanup (L "<#<#x") = L "<#x" /\ cleanup (cleanup (L "<#<#x")) = L "x".
Proof. vm_compute. split; reflexivity. Qed.

(** C4 (as the code has it): a cleaned text that contains no triple
    backtick, is not wrapped in triple quotes, does not start with [<#] and
    contains no [#>] is left unchanged by a second cleanup. *)
Theorem cleanup_idempotent_on_clean_output (s : jstr)
  (Hfence : includes (cleanup s) (L "```") = false)
  (Hquote : starts_with triple_quote (cleanup s) && ends_with triple_quote (cleanup s) = false)
  (Hopen : starts_with (L "<#") (cleanup s) = false)
  (Hclose : last_index_of (cleanup s) (L "#>") = None) :
  cleanup (cleanup s) = cleanup s.
Proof.
  pose proof (cleanup_trimmed s) as Htrim.
  set (t := cleanup s) in *.
  assert (H1 : clean_fences t = t).
  { unfold clean_fences, strip_fences. rewrite strip_fences_aux_no_fence by exact Hfence.
    exact Htrim. }
  unfold cleanup at 1. rewrite H1.
  unfold clean_quotes. rewrite Hquote.
  unfold clean_open. rewrite Hopen.
  unfold clean_close. rewrite Hclose. reflexivity.
Qed.

Lemma cleanup_idempotent_on_clean_output_witness :
  cleanup (cleanup (L "```python  Returns x.```")) = cleanup (L "```python  Returns x.```").
Proof.
  apply cleanup_idempotent_on_clean_output; vm_compute; reflexivity.
Defined.

(** Insertion never throws: a document has a line 0. *)
Lemma insertDocstring_total (d : document) (docstring : jstr) (ctx : CodeContext)
  (cfg : LanguageConfig) :
  exists t', insertDocstring d docstring ctx cfg = Ok t'.
Proof.
  unfold insertDocstring. destruct (isModuleLevel ctx); eexists; reflexivity.
Qed.

(** When detection and the API call succeed, the text inserted is the
    cleanup of the answer. *)
Lemma generate_inserts_cleanup (ed : Editor) (st : Settings) (backend : Backend)
  (cfg : LanguageConfig) (model apiKey : jstr) (ctx : CodeContext) (resp : Response)
  (t t' : jstr)
  (Hcfg : findLanguageConfig (ed_languageId ed) = Some cfg)
  (Hmodel : truthy (set_model st) = Some model)
  (Hkey : truthy (set_apiKey st) = Some apiKey)
  (Hdet : getCodeToDocument (ed_doc ed) cfg (ed_selection ed) = Ok (Some ctx))
  (Hgen : is_blank (trim (getText (ed_doc ed))) && isModuleLevel ctx = false)
  (Hresp : backend (gemini_request (gemini_endpoint model) apiKey
                      (buildPrompt (code ctx) (isModuleLevel ctx) cfg)) = Ok resp)
  (Hok : resp_ok resp = true)
  (Hjson : resp_json resp = JsonCandidates (Some t))
  (Hins : insertDocstring (ed_doc ed) (cleanup t) ctx cfg = Ok t') :
  generateDocstring ed st backend =
    {| run_requests := [gemini_request (gemini_endpoint model) apiKey
                          (buildPrompt (code ctx) (isModuleLevel ctx) cfg)];
       run_text := t'; run_message := InfoMessage msg_success |}.
Proof.
  unfold generateDocstring. rewrite Hcfg, Hmodel, Hkey, Hdet, Hgen.
  unfold callGeminiAPI. rewrite Hresp. cbn [bind]. rewrite Hok, Hjson.
  cbn [negb]. rewrite Hins. reflexivity.
Qed.

(** C10 refuted: the [#>] the claim looks for can be the one inside a
    leading [<#>], which the removal of [<#] breaks before the search. *)
Lemma open_marker_hides_close_marker :
  last_index_of (clean_quotes (clean_fences (L "<#>abc"))) (L "#>") = Some 1 /\
  run_text (generateDocstring pass_editor sample_settings (backend_text (L "<#>abc"))) =
    L "def f():" ++ [nl] ++ L "    " ++ triple_quote ++ [nl] ++ L "    >abc" ++ [nl] ++
    L "    " ++ triple_quote ++ [nl; nl] ++ L "    pass".
Proof. vm_compute. split; reflexivity. Qed.

(** C10 (as the code has it): the cleanup takes no language, so in a
    Python run too, once fences, an outer triple-quote pair and a leading
    [<#] are removed, the text is cut at its last [#>] and the trimmed part
    before it is what gets inserted. *)
Theorem python_run_truncates_at_last_close (ed : Editor) (st : Settings) (backend : Backend)
  (model apiKey : jstr) (ctx : CodeContext) (resp : Response) (t : jstr) (j : nat)
  (Hcfg : findLanguageConfig (ed_languageId ed) = Some python_config)
  (Hmodel : truthy (set_model st) = Some model)
  (Hkey : truthy (set_apiKey st) = Some apiKey)
  (Hdet : getCodeToDocument (ed_doc ed) python_config (ed_selection ed) = Ok (Some ctx))
  (Hgen : is_blank (trim (getText (ed_doc ed))) && isModuleLevel ctx = false)
  (Hresp : backend (gemini_request (gemini_endpoint model) apiKey
                      (buildPrompt (code ctx) (isModuleLevel ctx) python_config)) = Ok resp)
  (Hok : resp_ok resp = true)
  (Hjson : resp_json resp = JsonCandidates (Some t))
  (Hlast : last_index_of (clean_open (clean_quotes (clean_fences t))) (L "#>") = Some j) :
  exists t',
    insertDocstring (ed_doc ed) (trim (firstn j (clean_open (clean_quotes (clean_fences t)))))
      ctx python_config = Ok t' /\
    generateDocstring ed st backend =
      {| run_requests := [gemini_request (gemini_endpoint model) apiKey
                            (buildPrompt (code ctx) (isModuleLevel ctx) python_config)];
         run_text := t'; run_message := InfoMessage msg_success |}.
Proof.
  assert (Hc : cleanup t = trim (firstn j (clean_open (clean_quotes (clean_fences t))))).
  { unfold cleanup, clean_close. rewrite Hlast, js_substring_0. reflexivity. }
  destruct (insertDocstring_total (ed_doc ed)
              (trim (firstn j (clean_open (clean_quotes (clean_fences t))))) ctx python_config)
    as [t' Hins].
  exists t'. split; [exact Hins|].
  eapply generate_inserts_cleanup; try eassumption.
  rewrite Hc. exact Hins.
Qed.

Lemma python_run_truncates_at_last_close_witness :
  exists t',
    insertDocstring (ed_doc pass_editor) (L "Summary.") (
      {| code := L "def f():" ++ [nl] ++ L "    pass"; isModuleLevel := false;
         ctx_range := Rng (Pos 0 0) (Pos 2 0); indentation := []; definitionLine := 0 |})
      python_config = Ok t' /\
    generateDocstring pass_editor sample_settings
      (backend_text (L "Summary.#>def f(): pass")) =
      {| run_requests := [gemini_request (gemini_endpoint (L "gemini-2.0-flash")) (L "KEY")
                            (buildPrompt (L "def f():" ++ [nl] ++ L "    pass") false python_config)];
         run_text := t'; run_message := InfoMessage msg_success |}.
Proof.
  apply (python_run_truncates_at_last_close pass_editor sample_settings
           (backend_text (L "Summary.#>def f(): pass")) (L "gemini-2.0-flash") (L "KEY")
           {| code := L "def f():" ++ [nl] ++ L "    pass"; isModuleLevel := false;
              ctx_range := Rng (Pos 0 0) (Pos 2 0); indentation := []; definitionLine := 0 |}
           {| resp_ok := true; resp_status := 200; resp_text := [];
              resp_json := JsonCandidates (Some (L "Summary.#>def f(): pass")) |}
           (L "Summary.#>def f(): pass") 8);
    vm_compute; reflexivity.
Defined.

(** * The upward walk of enclosing-definition mode *)

Lemma cursor_isEmpty (l c : nat) : isEmpty (cursor l c) = true.
Proof.
  unfold isEmpty, sel_start, sel_end, cursor. cbn [sel_active sel_anchor].
  destruct (pos_before _ _); unfold pos_eqb; cbn [pos_line pos_char];
    rewrite !Nat.eqb_refl; reflexivity.
Qed.

(** C1: the walk accepts only [,] and [:] as line endings, for every
    profile.  With the PowerShell profile, the line [{] opening the body
    of [function Get-Foo] ends with that profile's block-open marker, yet
    the walk aborts on it instead of going on to the definition above. *)
Theorem powershell_brace_line_aborts :
  powershell_definitionKeywords (L "function Get-Foo") = true /\
  powershell_definitionKeywords (L "{") = false /\
  ends_with (L "{") (L "{") = true /\
  getCodeToDocument ps_brace_doc powershell_config (cursor 1 0) = Throw msg_no_definition.
Proof. vm_compute. repeat split; reflexivity. Qed.

(** C2: in Scenario B the cursor line [    return x] is itself checked by
    the walk; it ends with neither [,] nor [:], so detection aborts and
    the run only reports the error, whatever the column and the backend. *)
Theorem scenarioB_cursor_in_body_aborts (c : nat) :
  getCodeToDocument scenarioB_doc python_config (cursor 1 c) = Throw msg_no_definition /\
  forall backend : Backend,
    generateDocstring {| ed_doc := scenarioB_doc; ed_languageId := L "python";
                         ed_selection := cursor 1 c |} sample_settings backend =
    error_run [] scenarioB_doc msg_no_definition.
Proof.
  assert (H : getCodeToDocument scenarioB_doc python_config (cursor 1 c) = Throw msg_no_definition).
  { unfold getCodeToDocument. rewrite cursor_isEmpty. reflexivity. }
  split; [exact H|].
  intros backend. unfold generateDocstring. cbn [ed_doc ed_languageId ed_selection].
  change (findLanguageConfig (L "python")) with (Some python_config).
  change (truthy (set_model sample_settings)) with (Some (L "gemini-2.0-flash")).
  change (truthy (set_apiKey sample_settings)) with (Some (L "KEY")).
  cbv iota beta. rewrite H. reflexivity.
Qed.

(** Had detection built the context Scenario B expects, insertion would
    put the docstring at line 1, four columns in, above the body. *)
Lemma scenarioB_insertion_with_expected_ctx :
  insertDocstring scenarioB_doc (L "Doc.") scenarioB_expected_ctx python_config =
    Ok (join [nl] [L "def f(x):"; L "    " ++ triple_quote; L "    Doc.";
                   L "    " ++ triple_quote; []; L "    return x"; []]).
Proof. vm_compute. reflexivity. Qed.

(** * More of region detection *)

Ltac walk_step E :=
  match goal with
  | H : context [lineAt ?d ?n] |- _ =>
      unfold lineAt in H; destruct (nth_error (lines d) n) as [?|] eqn:E;
      cbn [bind] in H; [|discriminate]
  end.

(** The walk returns null only after passing every line from the start
    up to line 0, none of them a definition or a line that aborts it. *)
Theorem walk_up_none (d : document) (cfg : LanguageConfig) (n : nat)
  (H : walk_up d cfg n = Ok None) :
  forall j, j <= n -> exists u, nth_error (lines d) j = Some u /\
    definitionKeywords cfg u = false /\ walk_aborts_on u = false.
Proof.
  induction n as [|m IH]; cbn [walk_up] in H; walk_step E.
  - destruct (definitionKeywords cfg _) eqn:Ed; [discriminate|].
    destruct (negb _ && negb _ && _) eqn:Ea; [discriminate|].
    intros j Hj. assert (j = 0) as -> by lia. eauto.
  - destruct (definitionKeywords cfg _) eqn:Ed; [discriminate|].
    destruct (negb _ && negb _ && _) eqn:Ea; [discriminate|].
    intros j Hj. destruct (Nat.eq_dec j (S m)) as [->|Hne]; [eauto|].
    apply IH; [exact H|lia].
Qed.

Lemma walk_up_none_witness :
  walk_up no_definition_doc python_config 1 = Ok None /\
  forall j, j <= 1 -> exists u, nth_error (lines no_definition_doc) j = Some u /\
    definitionKeywords python_config u = false /\ walk_aborts_on u = false.
Proof.
  split; [reflexivity|]. apply (walk_up_none no_definition_doc python_config 1).
  reflexivity.
Defined.

(** From a line of the document, the walk throws only the malformed-context
    error, and only at a line that is not a definition and aborts it, all
    lines between it and the start being passable. *)
Theorem walk_up_throws (d : document) (cfg : LanguageConfig) (n : nat) (e : jstr)
  (Hn : n < lineCount d) (H : walk_up d cfg n = Throw e) :
  e = msg_no_definition /\
  exists j t, j <= n /\ nth_error (lines d) j = Some t /\
    definitionKeywords cfg t = false /\ walk_aborts_on t = true /\
    (forall i u, j < i <= n -> nth_error (lines d) i = Some u ->
       definitionKeywords cfg u = false /\ walk_aborts_on u = false).
Proof.
  induction n as [|m IH]; cbn [walk_up] in H; unfold lineAt in H;
    [destruct (nth_error (lines d) 0) as [t|] eqn:E
    |destruct (nth_error (lines d) (S m)) as [t|] eqn:E];
    try (apply nth_error_None in E; unfold lineCount in Hn; lia);
    cbn [bind] in H.
  - destruct (definitionKeywords cfg t) eqn:Ed; [discriminate|].
    destruct (negb _ && negb _ && _) eqn:Ea; [|discriminate].
    injection H as <-. split; [reflexivity|]. exists 0, t. repeat split; auto; lia.
  - destruct (definitionKeywords cfg t) eqn:Ed; [discriminate|].
    destruct (negb _ && negb _ && _) eqn:Ea.
    + injection H as <-. split; [reflexivity|]. exists (S m), t.
      repeat split; auto; lia.
    + destruct (IH ltac:(lia) H) as (He & j & u & Hj & Hu & Hd & Ha & Hpass).
      split; [exact He|]. exists j, u.
      split; [lia|]. do 3 (split; [assumption|]).
      intros i0 w Hi Hw. destruct (Nat.eq_dec i0 (S m)) as [->|Hne].
      * rewrite E in Hw. injection Hw as <-. split; [exact Ed|exact Ea].
      * apply (Hpass i0 w); [lia|exact Hw].
Qed.

Lemma walk_up_throws_witness :
  msg_no_definition = msg_no_definition /\
  exists j t, j <= 1 /\ nth_error (lines ps_brace_doc) j = Some t /\
    definitionKeywords powershell_config t = false /\ walk_aborts_on t = true /\
    (forall i u, j < i <= 1 -> nth_error (lines ps_brace_doc) i = Some u ->
       definitionKeywords powershell_config u = false /\ walk_aborts_on u = false).
Proof.
  apply (walk_up_throws ps_brace_doc powershell_config 1 msg_no_definition);
    vm_compute; (reflexivity || lia).
Defined.

Section DetectionFacts.
Context {A : Type}.

Lemma nth_error_skipn_add (l : list A) (n i : nat) :
  nth_error (skipn n l) i = nth_error l (n + i).
Proof.
  revert l; induction n as [|n IH]; intros [|x l]; simpl; auto.
  destruct i; reflexivity.
Qed.

Lemma firstn_add_skipn (l : list A) (n m : nat) :
  firstn (n + m) l = firstn n l ++ firstn m (skipn n l).
Proof.
  revert l; induction n as [|n IH]; intros [|x l]; simpl; auto.
  - destruct m; reflexivity.
  - rewrite IH. reflexivity.
Qed.

End DetectionFacts.

(** What the downward loop establishes about the lines it scans. *)
Lemma walk_down_inv (defIndent : nat) (rest : list jstr) (m : nat) :
  let e := walk_down defIndent rest m in
  m <= e <= m + length rest /\
  (forall i u, i < e - m -> nth_error rest i = Some u ->
     isEmptyOrWhitespace u = true \/ defIndent < firstNonWhitespaceCharacterIndex u) /\
  (forall u, nth_error rest (e - m) = Some u ->
     isEmptyOrWhitespace u = false /\ firstNonWhitespaceCharacterIndex u <= defIndent).
Proof.
  revert m; induction rest as [|t r IH]; intros m; cbn zeta.
  - simpl. split; [lia|]. split.
    + intros i u _ Hu. destruct i; discriminate.
    + intros u Hu. destruct (m - m); discriminate.
  - simpl walk_down.
    destruct (negb (isEmptyOrWhitespace t) && (firstNonWhitespaceCharacterIndex t <=? defIndent))
      eqn:Ec.
    + apply andb_true_iff in Ec as [E1 E2]. apply negb_true_iff in E1.
      apply Nat.leb_le in E2.
      split; [simpl; lia|]. split; [intros; lia|].
      rewrite Nat.sub_diag. intros u Hu. injection Hu as <-. auto.
    + specialize (IH (S m)). cbn zeta in IH.
      destruct IH as (Hb & Hin & Hout).
      set (e := walk_down defIndent r (S m)) in *.
      split; [simpl; lia|]. split.
      * intros [|i] u Hi Hu.
        -- injection Hu as <-. apply andb_false_iff in Ec as [E|E].
           ++ apply negb_false_iff in E. auto.
           ++ apply Nat.leb_gt in E. auto.
        -- apply (Hin i u); [lia|exact Hu].
      * replace (e - m) with (S (e - S m)) by lia. exact Hout.
Qed.

Lemma mkRange_lines (k e : nat) : k < e -> mkRange (Pos k 0) (Pos e 0) = Rng (Pos k 0) (Pos e 0).
Proof.
  intros H. unfold mkRange, pos_before. cbn [pos_line pos_char].
  rewrite (proj2 (Nat.ltb_ge _ _)) by lia.
  rewrite (proj2 (Nat.eqb_neq _ _)) by lia. reflexivity.
Qed.

(** A context found from a cursor (case 3), unfolded. *)
Lemma case3_shape (d : document) (cfg : LanguageConfig) (sel : selection) (ctx : CodeContext) :
  isEmpty sel = true ->
  (pos_line (sel_active sel) =? 0) && (pos_char (sel_active sel) =? 0) = false ->
  getCodeToDocument d cfg sel = Ok (Some ctx) ->
  exists k t, walk_up d cfg (pos_line (sel_active sel)) = Ok (Some k) /\
    nth_error (lines d) k = Some t /\
    let e := walk_down (firstNonWhitespaceCharacterIndex t) (skipn (S k) (lines d)) (S k) in
    ctx = {| code := getTextRange d (Rng (Pos k 0) (Pos e 0));
             isModuleLevel := false;
             ctx_range := Rng (Pos k 0) (Pos e 0);
             indentation := leading_ws t;
             definitionLine := k |}.
Proof.
  intros Hempty Hnot00 H. unfold getCodeToDocument in H.
  rewrite Hempty in H. cbn [andb negb] in H. rewrite Hnot00 in H.
  destruct (walk_up d cfg _) as [[k|]|] eqn:Ew; cbn [bind] in H; try discriminate.
  unfold lineAt in H. destruct (nth_error (lines d) k) as [t|] eqn:Et; cbn [bind] in H;
    [|discriminate].
  exists k, t. split; [reflexivity|]. split; [exact Et|]. cbn zeta.
  pose proof (walk_down_inv (firstNonWhitespaceCharacterIndex t) (skipn (S k) (lines d)) (S k))
    as (Hb & _ & _).
  rewrite mkRange_lines in H by lia. injection H as <-. reflexivity.
Qed.

(** The walk-up facts, shared by the theorems below. *)
Lemma walk_up_found_inv (d : document) (cfg : LanguageConfig) (n k : nat) :
  walk_up d cfg n = Ok (Some k) ->
  k <= n /\
  (exists t, nth_error (lines d) k = Some t /\ definitionKeywords cfg t = true) /\
  (forall j u, k < j <= n -> nth_error (lines d) j = Some u ->
     definitionKeywords cfg u = false /\ walk_aborts_on u = false).
Proof.
  revert k. induction n as [|m IH]; intros k H; cbn [walk_up] in H; walk_step E.
  - destruct (definitionKeywords cfg _) eqn:Ed.
    + injection H as <-. split; [lia|]. split; [eauto|]. intros; lia.
    + destruct (_ && _ && _); discriminate.
  - destruct (definitionKeywords cfg _) eqn:Ed.
    + injection H as <-. split; [lia|]. split; [eauto|]. intros; lia.
    + destruct (negb _ && negb _ && _) eqn:Ea; [discriminate|].
      destruct (IH k H) as (Hk & Hdef & Hpass). split; [lia|]. split; [exact Hdef|].
      intros j u Hj Hu. destruct (Nat.eq_dec j (S m)) as [->|Hne].
      * rewrite E in Hu. injection Hu as <-. split; [exact Ed|exact Ea].
      * apply (Hpass j u); [lia|exact Hu].
Qed.

(** The upward walk stops at line [k] only if [k] is a definition line at
    or above the start, and every line passed on the way is neither a
    definition nor a line that aborts the walk. *)
Theorem walk_up_found (d : document) (cfg : LanguageConfig) (n k : nat)
  (H : walk_up d cfg n = Ok (Some k)) :
  k <= n /\
  (exists t, nth_error (lines d) k = Some t /\ definitionKeywords cfg t = true) /\
  (forall j u, k < j <= n -> nth_error (lines d) j = Some u ->
     definitionKeywords cfg u = false /\ walk_aborts_on u = false).
Proof. exact (walk_up_found_inv d cfg n k H). Qed.

Lemma walk_up_found_witness :
  walk_up split_signature_doc python_config 1 = Ok (Some 0) /\
  0 <= 1 /\
  (exists t, nth_error (lines split_signature_doc) 0 = Some t /\
             definitionKeywords python_config t = true) /\
  (forall j u, 0 < j <= 1 -> nth_error (lines split_signature_doc) j = Some u ->
     definitionKeywords python_config u = false /\ walk_aborts_on u = false).
Proof.
  split; [reflexivity|].
  apply (walk_up_found split_signature_doc python_config 1 0). reflexivity.
Defined.

(** From a cursor (empty selection away from (0,0)), a found context spans
    the lines [k] to [e - 1]: line [k] is a definition line at or above the
    cursor and gives the indentation; every line after it in the range is
    blank or indented deeper; line [e] is the end of the document or a
    non-blank line indented no deeper than line [k]. *)
Theorem cursor_context_is_indented_block (d : document) (cfg : LanguageConfig)
  (sel : selection) (ctx : CodeContext)
  (Hempty : isEmpty sel = true)
  (Hnot00 : (pos_line (sel_active sel) =? 0) && (pos_char (sel_active sel) =? 0) = false)
  (H : getCodeToDocument d cfg sel = Ok (Some ctx)) :
  exists k e t,
    ctx_range ctx = Rng (Pos k 0) (Pos e 0) /\ definitionLine ctx = k /\
    isModuleLevel ctx = false /\
    k <= pos_line (sel_active sel) /\ k < e <= lineCount d /\
    nth_error (lines d) k = Some t /\ definitionKeywords cfg t = true /\
    indentation ctx = leading_ws t /\
    (forall j u, k < j < e -> nth_error (lines d) j = Some u ->
       isEmptyOrWhitespace u = true \/
       firstNonWhitespaceCharacterIndex t < firstNonWhitespaceCharacterIndex u) /\
    (forall u, nth_error (lines d) e = Some u ->
       isEmptyOrWhitespace u = false /\
       firstNonWhitespaceCharacterIndex u <= firstNonWhitespaceCharacterIndex t).
Proof.
  destruct (case3_shape d cfg sel ctx Hempty Hnot00 H) as (k & t & Hw & Ht & Hctx).
  cbn zeta in Hctx.
  destruct (walk_up_found_inv _ _ _ _ Hw) as (Hk & (t' & Ht' & Hdef) & _).
  rewrite Ht in Ht'. injection Ht' as <-.
  pose proof (walk_down_inv (firstNonWhitespaceCharacterIndex t) (skipn (S k) (lines d)) (S k))
    as (Hb & Hin & Hout).
  set (e := walk_down _ _ (S k)) in *.
  rewrite length_skipn in Hb.
  assert (k < lineCount d) by (apply nth_error_Some; congruence).
  exists k, e, t. subst ctx. cbn [ctx_range definitionLine isModuleLevel indentation].
  do 3 (split; [reflexivity|]). split; [exact Hk|].
  split; [unfold lineCount in *; lia|].
  do 3 (split; [assumption || reflexivity|]). split.
  - intros j u Hj Hu. apply (Hin (j - S k) u); [lia|].
    rewrite nth_error_skipn_add. replace (S k + (j - S k)) with j by lia. exact Hu.
  - intros u Hu. apply Hout. rewrite nth_error_skipn_add.
    replace (S k + (e - S k)) with e by lia. exact Hu.
Qed.

Lemma concat_map_join (xs : list jstr) :
  xs <> [] -> concat (map (fun l => l ++ [nl]) xs) = join [nl] xs ++ [nl].
Proof.
  induction xs as [|x r IH]; intros Hne; [congruence|].
  destruct r as [|y r'].
  - simpl. rewrite !app_nil_r. reflexivity.
  - change (join [nl] (x :: y :: r')) with (x ++ [nl] ++ join [nl] (y :: r')).
    change (concat (map (fun l => l ++ [nl]) (x :: y :: r')))
      with ((x ++ [nl]) ++ concat (map (fun l => l ++ [nl]) (y :: r'))).
    rewrite IH by discriminate. rewrite !app_assoc. reflexivity.
Qed.

(** The text of the range from the start of line [k] to the start of line
    [e]: lines [k] to [e - 1] joined by LF, with a final LF when line [e]
    exists. *)
Lemma getTextRange_lines (d : document) (k e : nat) :
  k < e -> e <= lineCount d ->
  getTextRange d (Rng (Pos k 0) (Pos e 0)) =
    join [nl] (firstn (e - k) (skipn k (lines d))) ++
    match nth_error (lines d) e with Some _ => [nl] | None => [] end.
Proof.
  intros Hke Hel. unfold lineCount in Hel.
  destruct (nth_error (lines d) k) as [t|] eqn:Ek.
  2:{ apply nth_error_None in Ek. lia. }
  unfold getTextRange, offsetAt. cbn [pos_line pos_char rng_start rng_end].
  rewrite Ek, Nat.add_0_r.
  set (f := fun l : jstr => l ++ [nl]).
  set (P := concat (map f (firstn k (lines d)))).
  assert (Htext : getText d = P ++ join [nl] (skipn k (lines d)))
    by (unfold getText; apply join_firstn; lia).
  assert (HlsP : line_start d k = length P) by reflexivity.
  assert (Hskip : skipn (line_start d k) (getText d) = join [nl] (skipn k (lines d))).
  { rewrite Htext, HlsP, skipn_app, skipn_all, Nat.sub_diag, skipn_O. reflexivity. }
  rewrite Hskip.
  destruct (nth_error (lines d) e) as [u|] eqn:Ee.
  - rewrite Nat.add_0_r.
    assert (He : e < length (lines d)) by (apply nth_error_Some; congruence).
    set (Q := concat (map f (firstn (e - k) (skipn k (lines d))))).
    assert (Hls : line_start d e = length P + length Q).
    { unfold line_start. replace e with (k + (e - k)) at 1 by lia.
      rewrite firstn_add_skipn, map_app, concat_app, length_app. reflexivity. }
    assert (Hj : join [nl] (skipn k (lines d)) =
                 Q ++ join [nl] (skipn (e - k) (skipn k (lines d)))).
    { apply join_firstn. rewrite length_skipn. lia. }
    rewrite Hls, HlsP, Hj.
    replace (length P + length Q - length P) with (length Q) by lia.
    rewrite firstn_app, Nat.sub_diag, firstn_O, app_nil_r, firstn_all.
    apply concat_map_join.
    intros Hnil. apply (f_equal (@length jstr)) in Hnil.
    rewrite length_firstn, length_skipn in Hnil. cbn [length] in Hnil. lia.
  - apply nth_error_None in Ee.
    rewrite app_nil_r.
    rewrite (firstn_all2 (n := e - k)) by (rewrite length_skipn; lia).
    apply firstn_all2.
    rewrite Htext, length_app. lia.
Qed.

(** From a cursor, the code of a found context is exactly the lines of its
    range, taken verbatim from the buffer: lines [k] to [e - 1] joined by
    LF, with the line break that ends line [e - 1] when a line follows. *)
Theorem cursor_context_code_is_its_lines (d : document) (cfg : LanguageConfig)
  (sel : selection) (ctx : CodeContext)
  (Hempty : isEmpty sel = true)
  (Hnot00 : (pos_line (sel_active sel) =? 0) && (pos_char (sel_active sel) =? 0) = false)
  (H : getCodeToDocument d cfg sel = Ok (Some ctx)) :
  exists k e, ctx_range ctx = Rng (Pos k 0) (Pos e 0) /\
    code ctx = join [nl] (firstn (e - k) (skipn k (lines d))) ++
               match nth_error (lines d) e with Some _ => [nl] | None => [] end.
Proof.
  destruct (case3_shape d cfg sel ctx Hempty Hnot00 H) as (k & t & _ & Ht & Hctx).
  cbn zeta in Hctx.
  pose proof (walk_down_inv (firstNonWhitespaceCharacterIndex t) (skipn (S k) (lines d)) (S k))
    as (Hb & _ & _).
  set (e := walk_down _ _ (S k)) in *.
  rewrite length_skipn in Hb.
  assert (k < lineCount d) by (apply nth_error_Some; congruence).
  exists k, e. subst ctx. cbn [ctx_range code]. split; [reflexivity|].
  apply getTextRange_lines; unfold lineCount in *; lia.
Qed.

Lemma cursor_context_is_indented_block_witness :
  exists ctx, getCodeToDocument split_signature_doc python_config (cursor 1 0) = Ok (Some ctx) /\
  exists k e t,
    ctx_range ctx = Rng (Pos k 0) (Pos e 0) /\ definitionLine ctx = k /\
    isModuleLevel ctx = false /\
    k <= pos_line (sel_active (cursor 1 0)) /\ k < e <= lineCount split_signature_doc /\
    nth_error (lines split_signature_doc) k = Some t /\
    definitionKeywords python_config t = true /\
    indentation ctx = leading_ws t /\
    (forall j u, k < j < e -> nth_error (lines split_signature_doc) j = Some u ->
       isEmptyOrWhitespace u = true \/
       firstNonWhitespaceCharacterIndex t < firstNonWhitespaceCharacterIndex u) /\
    (forall u, nth_error (lines split_signature_doc) e = Some u ->
       isEmptyOrWhitespace u = false /\
       firstNonWhitespaceCharacterIndex u <= firstNonWhitespaceCharacterIndex t).
Proof.
  eexists. split; [reflexivity|].
  apply (cursor_context_is_indented_block split_signature_doc python_config (cursor 1 0));
    reflexivity.
Defined.

Lemma cursor_context_code_is_its_lines_witness :
  exists ctx, getCodeToDocument split_signature_doc python_config (cursor 1 0) = Ok (Some ctx) /\
  exists k e, ctx_range ctx = Rng (Pos k 0) (Pos e 0) /\
    code ctx = join [nl] (firstn (e - k) (skipn k (lines split_signature_doc))) ++
               match nth_error (lines split_signature_doc) e with Some _ => [nl] | None => [] end.
Proof.
  eexists. split; [reflexivity|].
  apply (cursor_context_code_is_its_lines split_signature_doc python_config (cursor 1 0));
    reflexivity.
Defined.

(** * More of insertion *)

(** What the signature loop establishes about the lines it passes. *)
Lemma signature_end_inv (m : jstr) (rest : list jstr) (n : nat) :
  rest <> [] ->
  let s := signature_end m rest n in
  n <= s < n + length rest /\
  (forall i u, i < s - n -> nth_error rest i = Some u -> includes u m = false) /\
  (S s = n + length rest \/ exists u, nth_error rest (s - n) = Some u /\ includes u m = true).
Proof.
  revert n; induction rest as [|t r IH]; intros n Hne; [congruence|]. cbn zeta.
  destruct r as [|x r'].
  - simpl. split; [lia|]. split; [intros; lia|]. left; lia.
  - change (signature_end m (t :: x :: r') n)
      with (if negb (includes t m) then signature_end m (x :: r') (S n) else n).
    destruct (includes t m) eqn:Et; cbn [negb].
    + split; [simpl; lia|]. split; [intros; lia|].
      right. exists t. rewrite Nat.sub_diag. split; [reflexivity|exact Et].
    + specialize (IH (S n) ltac:(discriminate)). cbn zeta in IH.
      destruct IH as (Hb & Hin & Hend).
      set (s := signature_end m (x :: r') (S n)) in *.
      split; [simpl in *; lia|]. split.
      * intros [|i] u Hi Hu.
        -- injection Hu as <-. exact Et.
        -- apply (Hin i u); [lia|exact Hu].
      * destruct Hend as [Hend|(u & Hu & Hinc)].
        -- left. simpl in *. lia.
        -- right. exists u. replace (s - n) with (S (s - S n)) by lia. split; assumption.
Qed.

Lemma insertAt_past_end (d : document) (l c : nat) (ins : jstr) :
  nth_error (lines d) l = None -> insertAt d (Pos l c) ins = getText d ++ ins.
Proof.
  intros H. unfold insertAt, offsetAt. cbn [pos_line]. rewrite H.
  rewrite firstn_all, skipn_all, app_nil_r. reflexivity.
Qed.

Lemma insertAt_line_start (d : document) (l : nat) (t : jstr) (ins : jstr) :
  nth_error (lines d) l = Some t ->
  insertAt d (Pos l 0) ins =
    concat (map (fun x => x ++ [nl]) (firstn l (lines d))) ++ ins ++
    join [nl] (skipn l (lines d)).
Proof.
  intros H. assert (Hl : l < length (lines d)) by (apply nth_error_Some; congruence).
  unfold insertAt, offsetAt. cbn [pos_line pos_char]. rewrite H, Nat.add_0_r.
  unfold getText. rewrite (join_firstn _ _ l Hl).
  set (P := concat (map (fun x => x ++ [nl]) (firstn l (lines d)))).
  assert (line_start d l = length P) by reflexivity.
  rewrite H0, firstn_app, firstn_all, Nat.sub_diag, firstn_O, app_nil_r.
  rewrite skipn_app, skipn_all, Nat.sub_diag, skipn_O. reflexivity.
Qed.

(** The signature loop on a configuration known to the registry. *)
Definition signature_marker (cfg : LanguageConfig) : jstr :=
  if array_includes (languageIds cfg) (L "python") then L ":"
  else if array_includes (languageIds cfg) (L "powershell") then L "{"
  else [].

Lemma insertDocstring_nonmodule (d : document) (docstring : jstr) (ctx : CodeContext)
  (cfg : LanguageConfig) :
  isModuleLevel ctx = false ->
  (array_includes (languageIds cfg) (L "python") ||
   array_includes (languageIds cfg) (L "powershell")) = true ->
  exists blk,
    insertDocstring d docstring ctx cfg =
      Ok (insertAt d (Pos (S (signature_end (signature_marker cfg)
                                (skipn (definitionLine ctx) (lines d))
                                (definitionLine ctx))) 0) blk) /\
    let bodyIndent := indentation ctx ++ L "    " in
    blk = bodyIndent ++ cs_start (commentStyle cfg) ++ [nl] ++
          join [nl] (map (fun line => if is_blank (trim line) then []
                                      else bodyIndent ++
                                           match cs_linePrefix (commentStyle cfg) with
                                           | Some p => p | None => [] end ++ line)
                         (split_lines docstring)) ++
          [nl] ++ bodyIndent ++ cs_end (commentStyle cfg) ++ [nl; nl].
Proof.
  intros Hm Hcfg. unfold insertDocstring, signature_marker. rewrite Hm.
  eexists. split; [|reflexivity].
  destruct (array_includes (languageIds cfg) (L "python")); [reflexivity|].
  cbn [orb] in Hcfg. rewrite Hcfg. reflexivity.
Qed.

(** For a function or class of a language the registry knows, the block
    goes right after line [s]: starting at the definition line, [s] is the
    first line containing the signature marker ([:] for Python, [{] for
    PowerShell), or the last line of the document when no line from the
    definition line on contains it. *)
Theorem signature_search_places_block (d : document) (docstring : jstr) (ctx : CodeContext)
  (cfg : LanguageConfig)
  (Hm : isModuleLevel ctx = false)
  (Hcfg : cfg = python_config \/ cfg = powershell_config)
  (Hdef : definitionLine ctx < lineCount d) :
  exists s blk,
    insertDocstring d docstring ctx cfg = Ok (insertAt d (Pos (S s) 0) blk) /\
    definitionLine ctx <= s < lineCount d /\
    (forall j u, definitionLine ctx <= j < s -> nth_error (lines d) j = Some u ->
       includes u (signature_marker cfg) = false) /\
    (S s = lineCount d \/
     exists u, nth_error (lines d) s = Some u /\ includes u (signature_marker cfg) = true).
Proof.
  destruct (insertDocstring_nonmodule d docstring ctx cfg Hm) as (blk & Hins & _).
  { destruct Hcfg as [->| ->]; reflexivity. }
  set (k := definitionLine ctx) in *.
  assert (Hne : skipn k (lines d) <> []).
  { intros E. apply (f_equal (@length jstr)) in E. rewrite length_skipn in E.
    unfold lineCount in Hdef. cbn [length] in E. lia. }
  destruct (signature_end_inv (signature_marker cfg) (skipn k (lines d)) k Hne)
    as (Hb & Hin & Hend).
  set (s := signature_end _ _ k) in *.
  rewrite length_skipn in Hb, Hend. unfold lineCount in *.
  exists s, blk. split; [exact Hins|]. split; [lia|]. split.
  - intros j u Hj Hu. apply (Hin (j - k) u); [lia|].
    rewrite nth_error_skipn_add. replace (k + (j - k)) with j by lia. exact Hu.
  - destruct Hend as [Hend|(u & Hu & Hinc)]; [left; lia|].
    right. exists u. rewrite nth_error_skipn_add in Hu.
    replace (k + (s - k)) with s in Hu by lia. split; assumption.
Qed.

Lemma signature_search_places_block_witness :
  exists s blk,
    insertDocstring ps_multiline_doc (L "Gets X.") ps_multiline_ctx powershell_config =
      Ok (insertAt ps_multiline_doc (Pos (S s) 0) blk) /\
    definitionLine ps_multiline_ctx <= s < lineCount ps_multiline_doc /\
    (forall j u, definitionLine ps_multiline_ctx <= j < s ->
       nth_error (lines ps_multiline_doc) j = Some u ->
       includes u (signature_marker powershell_config) = false) /\
    (S s = lineCount ps_multiline_doc \/
     exists u, nth_error (lines ps_multiline_doc) s = Some u /\
       includes u (signature_marker powershell_config) = true).
Proof.
  apply (signature_search_places_block ps_multiline_doc (L "Gets X.") ps_multiline_ctx
           powershell_config); [reflexivity|right; reflexivity|vm_compute; lia].
Defined.

(** At module level the block goes at the top of the text, or right after
    the first line when that line starts with [#!]; when that shebang line
    is the whole document, the block is appended to it with no line break
    in between. *)
Theorem module_block_placement (d : document) (docstring : jstr) (ctx : CodeContext)
  (cfg : LanguageConfig)
  (Hm : isModuleLevel ctx = true) :
  let blk := cs_start (commentStyle cfg) ++ [nl] ++ docstring ++ [nl] ++
             cs_end (commentStyle cfg) ++ [nl; nl] in
  insertDocstring d docstring ctx cfg =
    Ok (if starts_with (L "#!") (doc_line0 d) then
          match doc_rest d with
          | [] => doc_line0 d ++ blk
          | _ :: _ => doc_line0 d ++ [nl] ++ blk ++ join [nl] (doc_rest d)
          end
        else blk ++ getText d).
Proof.
  cbn zeta. unfold insertDocstring. rewrite Hm. cbn [lineAt lines nth_error bind].
  destruct (starts_with (L "#!") (doc_line0 d)).
  - destruct (doc_rest d) as [|x r] eqn:Er.
    + rewrite insertAt_past_end by (unfold lines; rewrite Er; reflexivity).
      unfold getText, lines. rewrite Er. reflexivity.
    + rewrite (insertAt_line_start d 1 x) by (unfold lines; rewrite Er; reflexivity).
      unfold lines. rewrite Er. cbn [firstn skipn map concat].
      rewrite app_nil_r, <- !app_assoc. reflexivity.
  - rewrite (insertAt_line_start d 0 (doc_line0 d)) by reflexivity.
    reflexivity.
Qed.

Lemma module_block_placement_witness :
  insertDocstring shebang_only_doc (L "Tool.") (module_ctx shebang_only_doc) python_config =
    Ok (L "#!/usr/bin/env python" ++ triple_quote ++ [nl] ++ L "Tool." ++ [nl] ++
        triple_quote ++ [nl; nl]).
Proof.
  exact (module_block_placement shebang_only_doc (L "Tool.") (module_ctx shebang_only_doc)
           python_config eq_refl).
Defined.



(** * More of the command handler *)

Lemma jstr_eqb_true (a b : jstr) : jstr_eqb a b = true <-> a = b.
Proof. unfold jstr_eqb. destruct (list_eq_dec ascii_dec a b); split; congruence. Qed.

Lemma findLanguageConfig_cases (languageId : jstr) (cfg : LanguageConfig) :
  findLanguageConfig languageId = Some cfg <->
  (languageId = L "python" /\ cfg = python_config) \/
  (languageId = L "powershell" /\ cfg = powershell_config).
Proof.
  unfold findLanguageConfig, LANGUAGE_CONFIGS, array_includes. cbn [find snd languageIds
    python_config powershell_config existsb].
  rewrite !orb_false_r.
  destruct (jstr_eqb languageId (L "python")) eqn:Ep.
  - apply jstr_eqb_true in Ep. subst. cbn. split.
    + intros H. injection H as <-. left; auto.
    + intros [[_ ->]|[E _]]; [reflexivity|discriminate].
  - destruct (jstr_eqb languageId (L "powershell")) eqn:Eps.
    + apply jstr_eqb_true in Eps. subst. cbn. split.
      * intros H. injection H as <-. right; auto.
      * intros [[E _]|[_ ->]]; [discriminate|reflexivity].
    + cbn. split; [discriminate|].
      intros [[E _]|[E _]]; subst; [rewrite (proj2 (jstr_eqb_true _ _) eq_refl) in Ep
                                   |rewrite (proj2 (jstr_eqb_true _ _) eq_refl) in Eps];
        discriminate.
Qed.

(** The registry resolves exactly the language ids [python] and
    [powershell], each to its own configuration. *)
Theorem registry_resolves_two_ids (languageId : jstr) (cfg : LanguageConfig) :
  findLanguageConfig languageId = Some cfg <->
  (languageId = L "python" /\ cfg = python_config) \/
  (languageId = L "powershell" /\ cfg = powershell_config).
Proof. exact (findLanguageConfig_cases languageId cfg). Qed.

(** For a file of any other language, the command only shows the warning
    naming the language id: no request, buffer unchanged. *)
Theorem unsupported_language_warns (ed : Editor) (st : Settings) (backend : Backend)
  (Hp : ed_languageId ed <> L "python") (Hps : ed_languageId ed <> L "powershell") :
  generateDocstring ed st backend =
    {| run_requests := []; run_text := getText (ed_doc ed);
       run_message := WarningMessage (L "Docstring generation is not supported for '"
                                       ++ ed_languageId ed ++ L "' files.") |}.
Proof.
  unfold generateDocstring.
  destruct (findLanguageConfig (ed_languageId ed)) as [cfg|] eqn:E; [|reflexivity].
  apply findLanguageConfig_cases in E as [[E _]|[E _]]; contradiction.
Qed.

Lemma unsupported_language_warns_witness :
  generateDocstring js_editor sample_settings backend_429 =
    {| run_requests := []; run_text := getText (ed_doc js_editor);
       run_message := WarningMessage (L "Docstring generation is not supported for '"
                                       ++ ed_languageId js_editor ++ L "' files.") |}.
Proof.
  apply unsupported_language_warns; cbn; discriminate.
Defined.

(** In a supported file, a missing or empty model or API key stops the
    command with the settings error before anything else: no request,
    buffer unchanged. *)
Theorem missing_settings_error (ed : Editor) (st : Settings) (backend : Backend)
  (cfg : LanguageConfig)
  (Hcfg : findLanguageConfig (ed_languageId ed) = Some cfg)
  (Hmiss : truthy (set_model st) = None \/ truthy (set_apiKey st) = None) :
  generateDocstring ed st backend =
    {| run_requests := []; run_text := getText (ed_doc ed);
       run_message := ErrorMessage (L "Please set 'aidocswriter.model' and 'aidocswriter.apiKey' in your settings.") |}.
Proof.
  unfold generateDocstring. rewrite Hcfg.
  destruct Hmiss as [E|E]; rewrite E; [reflexivity|].
  destruct (truthy (set_model st)); reflexivity.
Qed.

Lemma missing_settings_error_witness :
  generateDocstring scenarioB_editor_on_def no_key_settings backend_429 =
    {| run_requests := []; run_text := getText (ed_doc scenarioB_editor_on_def);
       run_message := ErrorMessage (L "Please set 'aidocswriter.model' and 'aidocswriter.apiKey' in your settings.") |}.
Proof.
  apply (missing_settings_error scenarioB_editor_on_def no_key_settings backend_429
           python_config); [reflexivity|right; reflexivity].
Defined.

(** When detection finds no definition (the upward walk reaches line 0
    over continuation lines only), the command shows the message asking
    for a selection or a cursor inside a definition: no request, buffer
    unchanged. *)
Theorem no_context_error (ed : Editor) (st : Settings) (backend : Backend)
  (cfg : LanguageConfig) (model apiKey : jstr)
  (Hcfg : findLanguageConfig (ed_languageId ed) = Some cfg)
  (Hmodel : truthy (set_model st) = Some model)
  (Hkey : truthy (set_apiKey st) = Some apiKey)
  (Hdet : getCodeToDocument (ed_doc ed) cfg (ed_selection ed) = Ok None) :
  generateDocstring ed st backend =
    {| run_requests := []; run_text := getText (ed_doc ed);
       run_message := ErrorMessage (L "Could not determine the code to document. Please select a function/class or place your cursor inside one.") |}.
Proof. unfold generateDocstring. rewrite Hcfg, Hmodel, Hkey, Hdet. reflexivity. Qed.

Lemma no_context_error_witness :
  generateDocstring no_definition_editor sample_settings backend_429 =
    {| run_requests := []; run_text := getText (ed_doc no_definition_editor);
       run_message := ErrorMessage (L "Could not determine the code to document. Please select a function/class or place your cursor inside one.") |}.
Proof.
  apply (no_context_error no_definition_editor sample_settings backend_429 python_config
           (L "gemini-2.0-flash") (L "KEY")); reflexivity.
Defined.

Lemma drop_ws_nil (y : jstr) : drop_ws y = [] -> forallb is_ws y = true.
Proof.
  induction y as [|c y IH]; [reflexivity|]. simpl.
  destruct (is_ws c); [exact IH|discriminate].
Qed.

Lemma forallb_rev_ws (y : jstr) : forallb is_ws (rev y) = forallb is_ws y.
Proof.
  induction y as [|c y IH]; [reflexivity|]. simpl.
  rewrite forallb_app, IH. simpl. rewrite andb_true_r, andb_comm. reflexivity.
Qed.

(** A text that trims to nothing is made of [\s] only. *)
Lemma trim_nil_all_ws (x : jstr) : trim x = [] -> forallb is_ws x = true.
Proof.
  unfold trim, drop_ws_end. intros H.
  assert (H' : drop_ws (rev (drop_ws x)) = []).
  { rewrite <- (rev_involutive (drop_ws (rev (drop_ws x)))), H. reflexivity. }
  apply drop_ws_nil in H'. rewrite forallb_rev_ws in H'.
  destruct (drop_ws_head x) as [Hn|(c & r & Hc & Hw)].
  - apply drop_ws_nil in Hn. exact Hn.
  - rewrite Hc in H'. simpl in H'. rewrite Hw in H'. discriminate.
Qed.

Lemma lastLine_exists (d : document) :
  exists t, nth_error (lines d) (lineCount d - 1) = Some t.
Proof.
  destruct (nth_error (lines d) (lineCount d - 1)) as [t|] eqn:E; [eauto|].
  apply nth_error_None in E. unfold lineCount, lines in *. cbn [length] in E. lia.
Qed.

(** In a supported file whose text is blank (only [\s]), the command with
    the cursor at (0,0) sends no request and inserts the language's fixed
    empty-code docstring at the top of the buffer. *)
Theorem blank_module_short_circuit (ed : Editor) (st : Settings) (backend : Backend)
  (cfg : LanguageConfig) (model apiKey : jstr)
  (Hcfg : findLanguageConfig (ed_languageId ed) = Some cfg)
  (Hmodel : truthy (set_model st) = Some model)
  (Hkey : truthy (set_apiKey st) = Some apiKey)
  (Hsel : ed_selection ed = cursor 0 0)
  (Hblank : trim (getText (ed_doc ed)) = []) :
  generateDocstring ed st backend =
    {| run_requests := [];
       run_text := cs_start (commentStyle cfg) ++ [nl] ++
                   ps_emptyCodeResponse (promptSettings cfg) ++ [nl] ++
                   cs_end (commentStyle cfg) ++ [nl; nl] ++ getText (ed_doc ed);
       run_message := InfoMessage msg_success |}.
Proof.
  set (d := ed_doc ed) in *.
  unfold generateDocstring. fold d. rewrite Hcfg, Hmodel, Hkey, Hsel.
  unfold getCodeToDocument. rewrite cursor_isEmpty. cbn [sel_active cursor pos_line pos_char].
  cbn [Nat.eqb andb].
  destruct (lastLine_exists d) as [t Ht]. unfold lineAt. rewrite Ht. cbn [bind].
  rewrite Hblank. cbn [is_blank andb isModuleLevel].
  unfold insertDocstring. cbn [isModuleLevel lineAt lines nth_error bind].
  assert (Hsh : starts_with (L "#!") (doc_line0 d) = false).
  { pose proof (trim_nil_all_ws _ Hblank) as Hall.
    unfold getText, lines in Hall.
    destruct (doc_line0 d) as [|c r] eqn:E0; [reflexivity|].
    cbn [starts_with L list_ascii_of_string].
    destruct (Ascii.eqb "#"%char c) eqn:Ec; [|reflexivity].
    apply Ascii.eqb_eq in Ec. subst c.
    destruct (doc_rest d); cbn in Hall; discriminate. }
  rewrite Hsh. rewrite (insertAt_line_start d 0 (doc_line0 d)) by reflexivity.
  cbn [firstn map concat skipn app].
  repeat (rewrite <- app_assoc || rewrite <- app_comm_cons). reflexivity.
Qed.

Lemma blank_module_short_circuit_witness :
  generateDocstring whitespace_editor sample_settings backend_429 =
    {| run_requests := [];
       run_text := cs_start (commentStyle powershell_config) ++ [nl] ++
                   ps_emptyCodeResponse (promptSettings powershell_config) ++ [nl] ++
                   cs_end (commentStyle powershell_config) ++ [nl; nl] ++
                   getText (ed_doc whitespace_editor);
       run_message := InfoMessage msg_success |}.
Proof.
  apply (blank_module_short_circuit whitespace_editor sample_settings backend_429
           powershell_config (L "gemini-2.0-flash") (L "KEY")); reflexivity.
Defined.

Lemma insertDocstring_insertAt (d : document) (docstring : jstr) (ctx : CodeContext)
  (cfg : LanguageConfig) :
  exists p blk, insertDocstring d docstring ctx cfg = Ok (insertAt d p blk).
Proof.
  unfold insertDocstring. destruct (isModuleLevel ctx); do 2 eexists; reflexivity.
Qed.

Lemma splice_unchanged (x : jstr) :
  exists o blk, o <= length x /\ x = firstn o x ++ blk ++ skipn o x.
Proof. exists 0, []. split; [lia|reflexivity]. Qed.

(** Case analysis on one run of the handler, down to its last step. *)
Ltac run_cases ed st backend :=
  unfold generateDocstring;
  destruct (findLanguageConfig (ed_languageId ed)) as [cfg|] eqn:Ecfg;
  [destruct (truthy (set_model st)) as [model|] eqn:Emodel;
   destruct (truthy (set_apiKey st)) as [apiKey|] eqn:Ekey;
   [destruct (getCodeToDocument (ed_doc ed) cfg (ed_selection ed)) as [[ctx|]|e] eqn:Edet;
    [destruct (is_blank (trim (getText (ed_doc ed))) && isModuleLevel ctx) eqn:Eblank;
     [destruct (insertDocstring_insertAt (ed_doc ed)
                  (ps_emptyCodeResponse (promptSettings cfg)) ctx cfg) as (p & blk & Hi);
      rewrite Hi
     |destruct (callGeminiAPI (gemini_endpoint model) apiKey
                  (buildPrompt (code ctx) (isModuleLevel ctx) cfg) backend)
        as [docstring|e] eqn:Eapi;
      [destruct (insertDocstring_insertAt (ed_doc ed) docstring ctx cfg) as (p & blk & Hi);
       rewrite Hi|]]
    | |]
   | | |]
  |].

(** Every run of the command sends at most one request, and the buffer
    text afterwards is the text before with one block inserted at one
    offset (possibly nothing): no existing character is removed or
    changed. *)
Theorem run_inserts_one_block (ed : Editor) (st : Settings) (backend : Backend) :
  let r := generateDocstring ed st backend in
  length (run_requests r) <= 1 /\
  exists o blk, o <= length (getText (ed_doc ed)) /\
    run_text r = firstn o (getText (ed_doc ed)) ++ blk ++ skipn o (getText (ed_doc ed)).
Proof.
  cbn zeta. run_cases ed st backend; cbn [run_requests run_text error_run length];
    (split; [lia|]);
    first [ apply insertAt_splice | apply splice_unchanged ].
Qed.

(** A run that does not end with the success message leaves the buffer
    text as it was. *)
Theorem unsuccessful_run_keeps_text (ed : Editor) (st : Settings) (backend : Backend) :
  let r := generateDocstring ed st backend in
  match run_message r with
  | InfoMessage _ => True
  | _ => run_text r = getText (ed_doc ed)
  end.
Proof.
  cbn zeta. run_cases ed st backend; cbn [run_message run_text error_run]; trivial.
Qed.

(** A request is sent only for a supported language with both settings
    present, after detection found a context that is not a blank module;
    the request goes to the endpoint of the configured model with the key
    and carries the prompt built from the context's code. *)
Theorem request_only_after_detection (ed : Editor) (st : Settings) (backend : Backend)
  (req : Request)
  (Hin : In req (run_requests (generateDocstring ed st backend))) :
  exists cfg model apiKey ctx,
    findLanguageConfig (ed_languageId ed) = Some cfg /\
    truthy (set_model st) = Some model /\ truthy (set_apiKey st) = Some apiKey /\
    getCodeToDocument (ed_doc ed) cfg (ed_selection ed) = Ok (Some ctx) /\
    is_blank (trim (getText (ed_doc ed))) && isModuleLevel ctx = false /\
    req = gemini_request (gemini_endpoint model) apiKey
            (buildPrompt (code ctx) (isModuleLevel ctx) cfg).
Proof.
  revert Hin. run_cases ed st backend; cbn [run_requests error_run In]; try tauto;
    intros [<-|[]]; exists cfg, model, apiKey, ctx; auto 6.
Qed.

Lemma request_only_after_detection_witness :
  exists cfg model apiKey ctx,
    findLanguageConfig (ed_languageId scenarioB_editor_on_def) = Some cfg /\
    truthy (set_model sample_settings) = Some model /\
    truthy (set_apiKey sample_settings) = Some apiKey /\
    getCodeToDocument (ed_doc scenarioB_editor_on_def) cfg
      (ed_selection scenarioB_editor_on_def) = Ok (Some ctx) /\
    is_blank (trim (getText (ed_doc scenarioB_editor_on_def))) && isModuleLevel ctx = false /\
    gemini_request (gemini_endpoint (L "gemini-2.0-flash")) (L "KEY")
      (buildPrompt (getText scenarioB_doc) false python_config) =
    gemini_request (gemini_endpoint model) apiKey
      (buildPrompt (code ctx) (isModuleLevel ctx) cfg).
Proof.
  apply (request_only_after_detection scenarioB_editor_on_def sample_settings backend_429).
  vm_compute. left. reflexivity.
Defined.

(** * More of the response cleanup *)

Lemma drop_ws_length (x : jstr) : length (drop_ws x) <= length x.
Proof.
  induction x as [|c x IH]; [reflexivity|]. simpl. destruct (is_ws c); simpl; lia.
Qed.

Lemma strip_fences_aux_length (f : nat) (s : jstr) :
  length (strip_fences_aux f s) <= length s.
Proof.
  revert s; induction f as [|f IH]; intros s; [reflexivity|].
  destruct s as [|c1 [|c2 [|c3 rest]]]; cbn [strip_fences_aux].
  - reflexivity.
  - cbn [length]. specialize (IH []). cbn [length] in IH. lia.
  - cbn [length]. specialize (IH [c2]). cbn [length] in IH. lia.
  - destruct (_ && _ && _).
    + set (r' := if starts_with (L "python") rest then _ else _).
      assert (length r' <= length rest).
      { unfold r'. pose proof (fun x => drop_ws_length x) as Hd.
        destruct (starts_with _ rest); [|destruct (starts_with _ rest)]; try lia;
          (etransitivity; [apply Hd|]); rewrite length_skipn; lia. }
      specialize (IH r'). cbn [length]. lia.
    + cbn [length]. specialize (IH (c2 :: c3 :: rest)). cbn [length] in IH |- *. lia.
Qed.

Lemma strip_fences_aux_head (f : nat) (c : ascii) (s : jstr) :
  Ascii.eqb c backtick = false -> exists r, strip_fences_aux f (c :: s) = c :: r.
Proof.
  intros Hc. destruct f as [|f]; [eexists; reflexivity|].
  destruct s as [|c2 [|c3 rest]]; cbn [strip_fences_aux]; [eexists; reflexivity..|].
  rewrite Hc. cbn [andb]. eexists; reflexivity.
Qed.

Lemma includes_length (o p : jstr) : includes o p = true -> length p <= length o.
Proof.
  assert (Hs : forall q t, starts_with q t = true -> length q <= length t).
  { induction q as [|a q IH]; intros [|b t] H; cbn in *; try lia; try discriminate.
    apply andb_true_iff in H as [_ H]. apply IH in H. lia. }
  induction o as [|c o IH]; intros H; cbn [includes] in H.
  - apply orb_true_iff in H as [H|H]; [apply Hs in H; exact H|discriminate].
  - apply orb_true_iff in H as [H|H]; [apply Hs in H; exact H|].
    apply IH in H. cbn [length]. lia.
Qed.

Lemma includes_short (o : jstr) : length o < 3 -> includes o (L "```") = false.
Proof.
  intros H. destruct (includes o (L "```")) eqn:E; [|reflexivity].
  apply includes_length in E. cbn in E. lia.
Qed.

(** With enough fuel, the fence replacement leaves no run of three
    backticks. *)
Lemma strip_fences_aux_no_triple (f : nat) (s : jstr) :
  length s <= f -> includes (strip_fences_aux f s) (L "```") = false.
Proof.
  revert s; induction f as [|f IH]; intros s Hf.
  - destruct s; [reflexivity|cbn in Hf; lia].
  - destruct s as [|c1 [|c2 [|c3 rest]]].
    + reflexivity.
    + apply includes_short. pose proof (strip_fences_aux_length (S f) [c1]).
      cbn [length] in *. lia.
    + apply includes_short. pose proof (strip_fences_aux_length (S f) [c1; c2]).
      cbn [length] in *. lia.
    + cbn [strip_fences_aux].
      destruct (Ascii.eqb c1 backtick && Ascii.eqb c2 backtick && Ascii.eqb c3 backtick)
        eqn:T.
      * apply IH. cbn [length] in Hf.
        destruct (starts_with (L "python") rest);
          [|destruct (starts_with (L "powershell") rest)]; try lia;
          (etransitivity; [apply drop_ws_length|]); rewrite length_skipn; lia.
      * set (o := strip_fences_aux f (c2 :: c3 :: rest)).
        assert (Ho : includes o (L "```") = false) by (apply IH; cbn [length] in *; lia).
        change (includes (c1 :: o) (L "```"))
          with (starts_with (L "```") (c1 :: o) || includes o (L "```")).
        rewrite Ho, orb_false_r.
        change (starts_with (L "```") (c1 :: o))
          with (Ascii.eqb backtick c1 && starts_with [backtick; backtick] o).
        rewrite Ascii.eqb_sym.
        destruct (Ascii.eqb c1 backtick) eqn:E1; [|reflexivity]. cbn [andb] in *.
        destruct (Ascii.eqb c2 backtick) eqn:E2.
        -- apply Ascii.eqb_eq in E2. subst c2. cbn [andb] in T.
           destruct f as [|f']; [cbn in Hf; lia|].
           assert (Hr : exists r, o = backtick :: c3 :: r).
           { unfold o. destruct rest as [|x r].
             - cbn [strip_fences_aux].
               destruct (strip_fences_aux_head f' c3 [] T) as (r & Hr).
               rewrite Hr. eauto.
             - cbn [strip_fences_aux]. rewrite Ascii.eqb_refl, T. cbn [andb].
               destruct (strip_fences_aux_head f' c3 (x :: r) T) as (r' & Hr).
               rewrite Hr. eauto. }
           destruct Hr as (r & ->). cbn [starts_with].
           rewrite Ascii.eqb_refl, (Ascii.eqb_sym backtick c3), T. reflexivity.
        -- destruct (strip_fences_aux_head f c2 (c3 :: rest) E2) as (r & Hr).
           unfold o. rewrite Hr. cbn [starts_with].
           rewrite (Ascii.eqb_sym backtick c2), E2. reflexivity.
Qed.

Lemma starts_with_app (p x b : jstr) : starts_with p x = true -> starts_with p (x ++ b) = true.
Proof.
  revert x; induction p as [|a p IH]; intros [|c x] H; cbn in *; try discriminate; auto.
  apply andb_true_iff in H as [H1 H2]. rewrite H1, (IH x H2). reflexivity.
Qed.

Lemma includes_app_r (x b p : jstr) : includes x p = true -> includes (x ++ b) p = true.
Proof.
  induction x as [|c x IHx]; intros E; cbn [includes app] in *.
  - apply orb_true_iff in E as [E|E]; [|discriminate].
    pose proof (starts_with_app _ [] b E) as E'. cbn [app] in E'.
    destruct b; cbn [includes]; rewrite E'; reflexivity.
  - apply orb_true_iff in E as [E|E].
    + pose proof (starts_with_app _ (c :: x) b E) as E'. cbn [app] in E'.
      rewrite E'. reflexivity.
    + rewrite (IHx E). apply orb_true_r.
Qed.

(** A needle absent from a text is absent from every piece of it. *)
Lemma includes_piece (a x b p : jstr) :
  includes (a ++ x ++ b) p = false -> includes x p = false.
Proof.
  induction a as [|c a IH]; intros H.
  - destruct (includes x p) eqn:E; [|reflexivity].
    cbn [app] in H. rewrite (includes_app_r x b p E) in H. discriminate.
  - apply IH. apply (includes_tail c). exact H.
Qed.

Lemma drop_ws_suffix (x : jstr) : exists a, x = a ++ drop_ws x.
Proof.
  induction x as [|c x IH]; [exists []; reflexivity|]. cbn [drop_ws].
  destruct (is_ws c); [destruct IH as (a & Ha); exists (c :: a); cbn; f_equal; exact Ha|].
  exists []; reflexivity.
Qed.

Lemma trim_piece (x : jstr) : exists a b, x = a ++ trim x ++ b.
Proof.
  unfold trim, drop_ws_end.
  destruct (drop_ws_suffix x) as (a & Ha).
  destruct (drop_ws_suffix (rev (drop_ws x))) as (c & Hc).
  exists a, (rev c). rewrite Ha at 1. f_equal.
  set (y := drop_ws x) in *. set (D := drop_ws (rev y)) in *.
  rewrite <- (rev_involutive y), Hc, rev_app_distr. reflexivity.
Qed.

Lemma js_substring_piece (s : jstr) (i j : nat) : exists a b, s = a ++ js_substring s i j ++ b.
Proof.
  unfold js_substring.
  set (m := Nat.min (Nat.min i (length s)) (Nat.min j (length s))).
  set (n := Nat.max (Nat.min i (length s)) (Nat.min j (length s)) - m).
  exists (firstn m s), (skipn n (skipn m s)).
  rewrite firstn_skipn. symmetry. apply firstn_skipn.
Qed.

Lemma piece_trans (x y z : jstr) :
  (exists a b, y = a ++ x ++ b) -> (exists c d, z = c ++ y ++ d) ->
  exists a b, z = a ++ x ++ b.
Proof.
  intros (a & b & Hy) (c & d & Hz). exists (c ++ a), (b ++ d).
  rewrite Hz, Hy, <- !app_assoc. reflexivity.
Qed.

Lemma piece_refl (x : jstr) : exists a b, x = a ++ x ++ b.
Proof. exists [], []. rewrite app_nil_r. reflexivity. Qed.

Lemma trim_js_substring_piece (s : jstr) (i j : nat) :
  exists a b, s = a ++ trim (js_substring s i j) ++ b.
Proof. apply (piece_trans _ (js_substring s i j)); [apply trim_piece|apply js_substring_piece]. Qed.

(** The cleanup only ever keeps a piece of the fence-stripped answer. *)
Lemma cleanup_piece (s : jstr) : exists a b, strip_fences s = a ++ cleanup s ++ b.
Proof.
  unfold cleanup.
  apply (piece_trans _ (clean_open (clean_quotes (clean_fences s)))).
  { unfold clean_close. destruct (last_index_of _ _);
      [apply trim_js_substring_piece|apply piece_refl]. }
  apply (piece_trans _ (clean_quotes (clean_fences s))).
  { unfold clean_open. destruct (starts_with _ _);
      [apply trim_js_substring_piece|apply piece_refl]. }
  apply (piece_trans _ (clean_fences s)).
  { unfold clean_quotes. destruct (_ && _);
      [apply trim_js_substring_piece|apply piece_refl]. }
  apply trim_piece.
Qed.

(** A docstring returned by the API client is trimmed and holds no run of
    three backticks: every Markdown fence of the answer is gone. *)
Theorem api_docstring_trimmed_without_fences (endpoint apiKey prompt s : jstr)
  (backend : Backend)
  (H : callGeminiAPI endpoint apiKey prompt backend = Ok s) :
  trim s = s /\ includes s (L "```") = false.
Proof.
  unfold callGeminiAPI in H.
  destruct (backend _) as [resp|e]; cbn [bind] in H; [|discriminate].
  destruct (negb (resp_ok resp)); [discriminate|].
  destruct (resp_json resp) as [m|[t|]|e]; try discriminate.
  injection H as <-. split; [apply cleanup_trimmed|].
  destruct (cleanup_piece t) as (a & b & Hp).
  apply (includes_piece a _ b). rewrite <- Hp.
  apply strip_fences_aux_no_triple. lia.
Qed.

Lemma api_docstring_trimmed_without_fences_witness :
  trim (L "a`b") = L "a`b" /\ includes (L "a`b") (L "```") = false.
Proof.
  apply (api_docstring_trimmed_without_fences (L "u") (L "k") (L "p") (L "a`b")
           (backend_text (L "`````` a```python`b ```"))).
  vm_compute. reflexivity.
Defined.

(** * The unused lookup loop *)

Lemma getLanguageConfig_loop_find (l : list (jstr * LanguageConfig)) (languageId : jstr) :
  getLanguageConfig_loop (map snd l) languageId =
  option_map snd (find (fun kc => array_includes (languageIds (snd kc)) languageId) l).
Proof.
  induction l as [|[k c] l IH]; [reflexivity|]. cbn [map getLanguageConfig_loop find snd].
  destruct (array_includes (languageIds c) languageId); [reflexivity|exact IH].
Qed.

(** The loop [getLanguageConfig] and the [find] used by the command agree
    on every language id. *)
Theorem getLanguageConfig_agrees (languageId : jstr) :
  getLanguageConfig languageId = findLanguageConfig languageId.
Proof. apply getLanguageConfig_loop_find. Qed.

(** * The earlier version *)

Lemma legacy_walk_up_cases (d : document) (n : nat) :
  n < lineCount d ->
  (exists k, Legacy.walk_up d n = Ok (Some k) /\ k <= n /\
     (exists t, nth_error (lines d) k = Some t /\ Legacy.definitionRegex t = true) /\
     (forall j u, k < j <= n -> nth_error (lines d) j = Some u ->
        Legacy.definitionRegex u = false)) \/
  (Legacy.walk_up d n = Ok None /\
   forall j u, j <= n -> nth_error (lines d) j = Some u -> Legacy.definitionRegex u = false).
Proof.
  induction n as [|m IH]; intros Hn; cbn [Legacy.walk_up]; unfold lineAt;
    [destruct (nth_error (lines d) 0) as [t|] eqn:E
    |destruct (nth_error (lines d) (S m)) as [t|] eqn:E];
    try (apply nth_error_None in E; unfold lineCount in Hn; lia); cbn [bind].
  - destruct (Legacy.definitionRegex t) eqn:Ed.
    + left. exists 0. split; [reflexivity|]. split; [lia|]. split; [eauto|]. intros; lia.
    + right. split; [reflexivity|]. intros j u Hj Hu.
      assert (j = 0) as -> by lia. rewrite E in Hu. injection Hu as <-. exact Ed.
  - destruct (Legacy.definitionRegex t) eqn:Ed.
    + left. exists (S m). split; [reflexivity|]. split; [lia|]. split; [eauto|].
      intros; lia.
    + destruct (IH ltac:(lia)) as [(k & Hw & Hk & Hdef & Hpass)|(Hw & Hnone)].
      * left. exists k. split; [exact Hw|]. split; [lia|]. split; [exact Hdef|].
        intros j u Hj Hu. destruct (Nat.eq_dec j (S m)) as [->|Hne].
        -- rewrite E in Hu. injection Hu as <-. exact Ed.
        -- apply (Hpass j u); [lia|exact Hu].
      * right. split; [exact Hw|]. intros j u Hj Hu.
        destruct (Nat.eq_dec j (S m)) as [->|Hne].
        -- rewrite E in Hu. injection Hu as <-. exact Ed.
        -- apply (Hnone j u); [lia|exact Hu].
Qed.

(** In the earlier version, a cursor on a line of the document (away from
    (0,0)) never makes detection fail: it yields the nearest definition
    line at or above the cursor, or null when there is none; lines in
    between may hold any code. *)
Theorem legacy_cursor_finds_nearest_definition (d : document) (sel : selection)
  (Hempty : isEmpty sel = true)
  (Hnot00 : (pos_line (sel_active sel) =? 0) && (pos_char (sel_active sel) =? 0) = false)
  (Hn : pos_line (sel_active sel) < lineCount d) :
  (exists ctx k, Legacy.getCodeToDocument d sel = Ok (Some ctx) /\
     definitionLine ctx = k /\ isModuleLevel ctx = false /\ k <= pos_line (sel_active sel) /\
     (exists t, nth_error (lines d) k = Some t /\ Legacy.definitionRegex t = true) /\
     (forall j u, k < j <= pos_line (sel_active sel) -> nth_error (lines d) j = Some u ->
        Legacy.definitionRegex u = false)) \/
  (Legacy.getCodeToDocument d sel = Ok None /\
   forall j u, j <= pos_line (sel_active sel) -> nth_error (lines d) j = Some u ->
     Legacy.definitionRegex u = false).
Proof.
  unfold Legacy.getCodeToDocument. rewrite Hempty. cbn [andb negb]. rewrite Hnot00.
  destruct (legacy_walk_up_cases d _ Hn) as [(k & Hw & Hk & (t & Ht & Hdef) & Hpass)|(Hw & Hnone)].
  - left. rewrite Hw. cbn [bind]. unfold lineAt. rewrite Ht. cbn [bind].
    eexists. exists k. split; [reflexivity|]. cbn [definitionLine isModuleLevel].
    split; [reflexivity|]. split; [reflexivity|]. split; [exact Hk|].
    split; [eauto|exact Hpass].
  - right. rewrite Hw. split; [reflexivity|exact Hnone].
Qed.

Lemma legacy_cursor_finds_nearest_definition_witness :
  (exists ctx k, Legacy.getCodeToDocument scenarioB_doc (cursor 1 4) = Ok (Some ctx) /\
     definitionLine ctx = k /\ isModuleLevel ctx = false /\ k <= 1 /\
     (exists t, nth_error (lines scenarioB_doc) k = Some t /\ Legacy.definitionRegex t = true) /\
     (forall j u, k < j <= 1 -> nth_error (lines scenarioB_doc) j = Some u ->
        Legacy.definitionRegex u = false)) \/
  (Legacy.getCodeToDocument scenarioB_doc (cursor 1 4) = Ok None /\
   forall j u, j <= 1 -> nth_error (lines scenarioB_doc) j = Some u ->
     Legacy.definitionRegex u = false).
Proof.
  apply (legacy_cursor_finds_nearest_definition scenarioB_doc (cursor 1 4));
    vm_compute; (reflexivity || lia).
Defined.

(** The earlier version only works on Python files: for any other
    language id it shows its warning, sends nothing and keeps the buffer. *)
Theorem legacy_non_python_warns (ed : Editor) (st : Legacy.Settings) (backend : Backend)
  (Hp : ed_languageId ed <> L "python") :
  Legacy.generateDocstring ed st backend =
    {| run_requests := []; run_text := getText (ed_doc ed);
       run_message := WarningMessage (L "This command is intended for Python files.") |}.
Proof.
  unfold Legacy.generateDocstring.
  destruct (jstr_eqb (ed_languageId ed) (L "python")) eqn:E; [|reflexivity].
  apply jstr_eqb_true in E. contradiction.
Qed.

Lemma legacy_non_python_warns_witness :
  Legacy.generateDocstring js_editor Legacy.sample_settings backend_429 =
    {| run_requests := []; run_text := getText (ed_doc js_editor);
       run_message := WarningMessage (L "This command is intended for Python files.") |}.
Proof. apply legacy_non_python_warns. cbn. discriminate. Defined.

(** In the earlier version, a blank Python buffer with the cursor at (0,0)
    gets the fixed docstring [Generic __init__.py.] in triple quotes and an empty
    line at its top, with no request sent. *)
Theorem legacy_blank_module_generic_init (ed : Editor) (st : Legacy.Settings)
  (backend : Backend) (endpoint apiKey : jstr)
  (Hp : ed_languageId ed = L "python")
  (Hend : truthy (Legacy.set_apiEndpoint st) = Some endpoint)
  (Hkey : truthy (Legacy.set_apiKey st) = Some apiKey)
  (Hsel : ed_selection ed = cursor 0 0)
  (Hblank : trim (getText (ed_doc ed)) = []) :
  Legacy.generateDocstring ed st backend =
    {| run_requests := [];
       run_text := Legacy.generic_init_docstring ++ [nl; nl] ++ getText (ed_doc ed);
       run_message := InfoMessage msg_success |}.
Proof.
  set (d := ed_doc ed) in *.
  unfold Legacy.generateDocstring. fold d. rewrite Hp. cbn [jstr_eqb].
  rewrite (proj2 (jstr_eqb_true _ _) eq_refl). cbn [negb].
  rewrite Hend, Hkey, Hsel.
  unfold Legacy.getCodeToDocument. rewrite cursor_isEmpty.
  cbn [sel_active cursor pos_line pos_char Nat.eqb andb].
  destruct (lastLine_exists d) as [t Ht]. unfold lineAt. rewrite Ht. cbn [bind].
  rewrite Hblank. cbn [is_blank andb isModuleLevel].
  unfold Legacy.insertDocstring. cbn [isModuleLevel lineAt lines nth_error bind].
  assert (Hsh : starts_with (L "#!") (doc_line0 d) = false).
  { pose proof (trim_nil_all_ws _ Hblank) as Hall.
    unfold getText, lines in Hall.
    destruct (doc_line0 d) as [|c r] eqn:E0; [reflexivity|].
    cbn [starts_with L list_ascii_of_string].
    destruct (Ascii.eqb "#"%char c) eqn:Ec; [|reflexivity].
    apply Ascii.eqb_eq in Ec. subst c.
    destruct (doc_rest d); cbn in Hall; discriminate. }
  rewrite Hsh. rewrite (insertAt_line_start d 0 (doc_line0 d)) by reflexivity.
  cbn [firstn map concat skipn app].
  repeat (rewrite <- app_assoc || rewrite <- app_comm_cons). reflexivity.
Qed.

Lemma legacy_blank_module_generic_init_witness :
  Legacy.generateDocstring Legacy.blank_editor Legacy.sample_settings backend_429 =
    {| run_requests := [];
       run_text := Legacy.generic_init_docstring ++ [nl; nl] ++
                   getText (ed_doc Legacy.blank_editor);
       run_message := InfoMessage msg_success |}.
Proof.
  apply (legacy_blank_module_generic_init Legacy.blank_editor Legacy.sample_settings
           backend_429 (L "https://example.invalid/v1/models/m:generateContent") (L "KEY"));
    reflexivity.
Defined.

Lemma legacy_strip_fences_aux_length (f : nat) (s : jstr) :
  length (Legacy.strip_fences_aux f s) <= length s.
Proof.
  revert s; induction f as [|f IH]; intros s; [reflexivity|].
  destruct s as [|c1 [|c2 [|c3 rest]]]; cbn [Legacy.strip_fences_aux].
  - reflexivity.
  - cbn [length]. specialize (IH []). cbn [length] in IH. lia.
  - cbn [length]. specialize (IH [c2]). cbn [length] in IH. lia.
  - destruct (_ && _ && _).
    + set (r' := if starts_with (L "python") rest then _ else _).
      assert (length r' <= length rest).
      { unfold r'. destruct (starts_with _ rest); [|lia].
        etransitivity; [apply drop_ws_length|]. rewrite length_skipn; lia. }
      specialize (IH r'). cbn [length]. lia.
    + cbn [length]. specialize (IH (c2 :: c3 :: rest)). cbn [length] in IH |- *. lia.
Qed.

Lemma legacy_strip_fences_aux_head (f : nat) (c : ascii) (s : jstr) :
  Ascii.eqb c backtick = false -> exists r, Legacy.strip_fences_aux f (c :: s) = c :: r.
Proof.
  intros Hc. destruct f as [|f]; [eexists; reflexivity|].
  destruct s as [|c2 [|c3 rest]]; cbn [Legacy.strip_fences_aux]; [eexists; reflexivity..|].
  rewrite Hc. cbn [andb]. eexists; reflexivity.
Qed.

Lemma legacy_strip_fences_aux_no_triple (f : nat) (s : jstr) :
  length s <= f -> includes (Legacy.strip_fences_aux f s) (L "```") = false.
Proof.
  revert s; induction f as [|f IH]; intros s Hf.
  - destruct s; [reflexivity|cbn in Hf; lia].
  - destruct s as [|c1 [|c2 [|c3 rest]]].
    + reflexivity.
    + apply includes_short. pose proof (legacy_strip_fences_aux_length (S f) [c1]).
      cbn [length] in *. lia.
    + apply includes_short. pose proof (legacy_strip_fences_aux_length (S f) [c1; c2]).
      cbn [length] in *. lia.
    + cbn [Legacy.strip_fences_aux].
      destruct (Ascii.eqb c1 backtick && Ascii.eqb c2 backtick && Ascii.eqb c3 backtick)
        eqn:T.
      * apply IH. cbn [length] in Hf.
        destruct (starts_with (L "python") rest); [|lia].
        etransitivity; [apply drop_ws_length|]. rewrite length_skipn; lia.
      * set (o := Legacy.strip_fences_aux f (c2 :: c3 :: rest)).
        assert (Ho : includes o (L "```") = false) by (apply IH; cbn [length] in *; lia).
        change (includes (c1 :: o) (L "```"))
          with (starts_with (L "```") (c1 :: o) || includes o (L "```")).
        rewrite Ho, orb_false_r.
        change (starts_with (L "```") (c1 :: o))
          with (Ascii.eqb backtick c1 && starts_with [backtick; backtick] o).
        rewrite Ascii.eqb_sym.
        destruct (Ascii.eqb c1 backtick) eqn:E1; [|reflexivity]. cbn [andb] in *.
        destruct (Ascii.eqb c2 backtick) eqn:E2.
        -- apply Ascii.eqb_eq in E2. subst c2. cbn [andb] in T.
           destruct f as [|f']; [cbn in Hf; lia|].
           assert (Hr : exists r, o = backtick :: c3 :: r).
           { unfold o. destruct rest as [|x r].
             - cbn [Legacy.strip_fences_aux].
               destruct (legacy_strip_fences_aux_head f' c3 [] T) as (r & Hr).
               rewrite Hr. eauto.
             - cbn [Legacy.strip_fences_aux]. rewrite Ascii.eqb_refl, T. cbn [andb].
               destruct (legacy_strip_fences_aux_head f' c3 (x :: r) T) as (r' & Hr).
               rewrite Hr. eauto. }
           destruct Hr as (r & ->). cbn [starts_with].
           rewrite Ascii.eqb_refl, (Ascii.eqb_sym backtick c3), T. reflexivity.
        -- destruct (legacy_strip_fences_aux_head f c2 (c3 :: rest) E2) as (r & Hr).
           unfold o. rewrite Hr. cbn [starts_with].
           rewrite (Ascii.eqb_sym backtick c2), E2. reflexivity.
Qed.

(** In the earlier version too, a docstring returned by the API client is
    trimmed and holds no run of three backticks. *)
Theorem legacy_api_docstring_trimmed_without_fences (endpoint apiKey prompt s : jstr)
  (backend : Backend)
  (H : Legacy.callGeminiAPI endpoint apiKey prompt backend = Ok s) :
  trim s = s /\ includes s (L "```") = false.
Proof.
  unfold Legacy.callGeminiAPI in H.
  destruct (backend _) as [resp|e]; cbn [bind] in H; [|discriminate].
  destruct (negb (resp_ok resp)); [discriminate|].
  destruct (resp_json resp) as [m|[t|]|e]; try discriminate.
  injection H as <-. unfold Legacy.cleanup. split; [apply trim_idem|].
  destruct (trim_piece (Legacy.strip_fences_aux (length t) t)) as (a & b & Hp).
  apply (includes_piece a _ b). rewrite <- Hp.
  apply legacy_strip_fences_aux_no_triple. lia.
Qed.

Lemma legacy_api_docstring_trimmed_without_fences_witness :
  trim (L "a`b") = L "a`b" /\ includes (L "a`b") (L "```") = false.
Proof.
  apply (legacy_api_docstring_trimmed_without_fences (L "u") (L "k") (L "p") (L "a`b")
           (backend_text (L "`````` a```python`b ```"))).
  vm_compute. reflexivity.
Defined.

Lemma legacy_insertDocstring_insertAt (d : document) (docstring : jstr) (ctx : CodeContext) :
  exists p blk, Legacy.insertDocstring d docstring ctx = Ok (insertAt d p blk).
Proof.
  unfold Legacy.insertDocstring. destruct (isModuleLevel ctx); do 2 eexists; reflexivity.
Qed.

(** In the earlier version too, a run sends at most one request and only
    inserts one block into the buffer, and a run that does not end with
    the success message leaves the buffer text as it was. *)
Theorem legacy_run_inserts_one_block (ed : Editor) (st : Legacy.Settings) (backend : Backend) :
  let r := Legacy.generateDocstring ed st backend in
  length (run_requests r) <= 1 /\
  (exists o blk, o <= length (getText (ed_doc ed)) /\
     run_text r = firstn o (getText (ed_doc ed)) ++ blk ++ skipn o (getText (ed_doc ed))) /\
  match run_message r with
  | InfoMessage _ => True
  | _ => run_text r = getText (ed_doc ed)
  end.
Proof.
  cbn zeta. unfold Legacy.generateDocstring.
  destruct (negb (jstr_eqb (ed_languageId ed) (L "python"))).
  { cbn. split; [lia|]. split; [apply splice_unchanged|reflexivity]. }
  destruct (truthy (Legacy.set_apiEndpoint st)) as [endpoint|];
  destruct (truthy (Legacy.set_apiKey st)) as [apiKey|];
    try (cbn; split; [lia|]; split; [apply splice_unchanged|reflexivity]).
  destruct (Legacy.getCodeToDocument (ed_doc ed) (ed_selection ed)) as [[ctx|]|e];
    try (cbn; split; [lia|]; split; [apply splice_unchanged|reflexivity]).
  destruct (is_blank (trim (getText (ed_doc ed))) && isModuleLevel ctx).
  - destruct (legacy_insertDocstring_insertAt (ed_doc ed) Legacy.generic_init_docstring ctx)
      as (p & blk & Hi).
    rewrite Hi. cbn. split; [lia|]. split; [apply insertAt_splice|exact I].
  - destruct (Legacy.callGeminiAPI _ _ _ backend) as [docstring|e].
    + destruct (legacy_insertDocstring_insertAt (ed_doc ed) docstring ctx) as (p & blk & Hi).
      rewrite Hi. cbn. split; [lia|]. split; [apply insertAt_splice|exact I].
    + cbn. split; [lia|]. split; [apply splice_unchanged|reflexivity].
Qed.
